(** * OCPP virtual charge point: connection, pending-call ledger and
      transaction simulator

    A shallow embedding of [src/vcp.ts] (class [VCP]) and
    [src/v16/transactionManager.ts] (class [TransactionManager]), and the
    properties of the design document that concern them.

    Conventions of the embedding.
    - JavaScript values are the inductive type [jsval]; a wire frame is
      represented by the value it parses to ([JSON.parse]) or is printed
      from ([JSON.stringify]), never by its text.
    - Methods are computations in the monad [M]: they read and update one
      [World] (the [VCP] object, the module-level singletons [ocppOutbox] and
      [transactionManager], the timers of the event loop, the clock) and end
      by returning, by throwing, or by terminating the process. A [throw]
      keeps every update made before it, as in JavaScript.
    - Calls made on collaborators (the transport, the admin clients, the
      outbox, the resolved message handler, the logger) are appended to the
      [w_trace] of the world, oldest first. *)

From Stdlib Require Import ZArith Floats Ascii String.
From stdpp Require Import gmap strings list pretty.

Set Warnings "-register-all".

Local Open Scope string_scope.
Local Open Scope Z_scope.

(** ** JavaScript values *)

(** [JDate ms] is the [Date] of time value [ms], and also the string that
    [toISOString] gives it: both have the same JSON text, and no method reads
    more of them than their truth. *)
Inductive jsval : Type :=
| JUndefined
| JNull
| JBool (b : bool)
| JNum (x : float)
| JStr (s : string)
| JDate (ms : Z)
| JArr (items : list jsval)
| JObj (fields : list (string * jsval)).

(** Exceptions. The two validators and the message handler are collaborators:
    what they throw is a [SchemaViolation] or a [HandlerFailure]. *)
Inductive Exn : Type :=
| WebsocketNotInitialized
| CloseNotOpened
| UnknownCallResult (messageId : jsval)
| UnrecognizedMessageType (type : jsval)
| DuplicateCallId (messageId : string)
| SchemaViolation (action payload : jsval)
| TypeError
| SyntaxError
| HandlerFailure (reason : string).

(** How a computation ends: [return], [throw], or [process.exit]. *)
Inductive Outcome (A : Type) : Type :=
| Ok (a : A)
| Throw (e : Exn)
| Exit (code : Z).
Arguments Ok {A} a.
Arguments Throw {A} e.
Arguments Exit {A} code.

(** The number a time value or an integer stands for. Time values and
    transaction identifiers are integers below 2^53 in absolute value, which
    binary64 holds exactly. *)
Definition num_of_Z (z : Z) : float :=
  match z with
  | Z0 => 0%float
  | Zpos _ => PrimFloat.of_uint63 (Uint63.of_Z z)
  | Zneg _ => (- PrimFloat.of_uint63 (Uint63.of_Z (- z)))%float
  end.

(** What the embedding takes from the JavaScript runtime without defining it:
    the conversions of arbitrary values to strings and numbers, [parseFloat]
    on a string, [Math.round] and [Math.floor]. *)
Record JSRuntime : Type := {
  js_ToString : jsval -> string;
  js_ToNumber : jsval -> float;
  js_parseFloat : string -> float;
  Math_round : float -> float;
  Math_floor : float -> float
}.

(** [!!v]: the falsy values are undefined, null, false, 0, NaN and the empty
    string. *)
Definition truthy (v : jsval) : bool :=
  match v with
  | JUndefined | JNull => false
  | JBool b => b
  | JNum x => negb (PrimFloat.eqb x 0%float || PrimFloat.is_nan x)
  | JStr s => negb (String.eqb s "")
  | JDate _ | JArr _ | JObj _ => true
  end.

(** [a || b] on values. *)
Definition js_or (a b : jsval) : jsval := if truthy a then a else b.

(** [v === "s"]. *)
Definition strict_eq_str (v : jsval) (s : string) : bool :=
  match v with
  | JStr s' => String.eqb s' s
  | _ => false
  end.

(** [v === n] for a number literal. *)
Definition strict_eq_num (v : jsval) (n : float) : bool :=
  match v with
  | JNum x => PrimFloat.eqb x n
  | _ => false
  end.

(** A string is the UTF-8 bytes of its text. A byte continues a character
    when it is 10xxxxxx, and starts a character outside the basic plane, which
    JavaScript counts as two units, when it is 11110xxx. *)
Definition continues (c : ascii) : bool :=
  match c with
  | Ascii _ _ _ _ _ _ false true => true
  | _ => false
  end.

Definition starts_pair (c : ascii) : bool :=
  match c with
  | Ascii _ _ _ false true true true true => true
  | _ => false
  end.

(** [s.length]: the UTF-16 units of the text. *)
Fixpoint units (s : string) : nat :=
  match s with
  | EmptyString => O
  | String c rest =>
      ((if continues c then 0 else if starts_pair c then 2 else 1)
       + units rest)%nat
  end.

(** The characters of a string, as its iterator gives them: one string per
    code point. *)
Definition head_continues (s : string) : bool :=
  match s with
  | EmptyString => false
  | String d _ => continues d
  end.

Fixpoint chars (s : string) : list jsval :=
  match s with
  | EmptyString => []
  | String c rest =>
      match chars rest with
      | JStr first :: others =>
          if head_continues rest then JStr (String c first) :: others
          else JStr (String c EmptyString) :: JStr first :: others
      | others => JStr (String c EmptyString) :: others
      end
  end.

Fixpoint assoc (k : string) (fields : list (string * jsval)) : jsval :=
  match fields with
  | [] => JUndefined
  | (k', v) :: rest => if String.eqb k' k then v else assoc k rest
  end.

(** [v.name]: a [TypeError] (here [None]) on undefined and null; own
    properties of an object; [length] of an array or a string; undefined
    otherwise. *)
Definition get_prop (v : jsval) (name : string) : option jsval :=
  match v with
  | JUndefined | JNull => None
  | JObj fields => Some (assoc name fields)
  | JArr items =>
      Some (if String.eqb name "length"
            then JNum (num_of_Z (Z.of_nat (length items))) else JUndefined)
  | JStr s =>
      Some (if String.eqb name "length"
            then JNum (num_of_Z (Z.of_nat (units s))) else JUndefined)
  | JBool _ | JNum _ | JDate _ => Some JUndefined
  end.

(** [v[0]]. Of a string it is the first character; when that character is
    outside the basic plane, JavaScript gives its first unit, which is no text
    of its own and stands here as the character. *)
Definition get_first (v : jsval) : option jsval :=
  match v with
  | JUndefined | JNull => None
  | JArr items => Some (nth 0 items JUndefined)
  | JStr s => Some (nth 0 (chars s) JUndefined)
  | JObj fields => Some (assoc "0" fields)
  | JBool _ | JNum _ | JDate _ => Some JUndefined
  end.

(** [v > 0]. *)
Definition gt_zero (rt : JSRuntime) (v : jsval) : bool :=
  match v with
  | JUndefined | JNull => false
  | JBool b => b
  | JNum x => PrimFloat.ltb 0%float x
  | JDate ms => 0 <? ms
  | JStr _ | JArr _ | JObj _ => PrimFloat.ltb 0%float (js_ToNumber rt v)
  end.

(** The string a template literal inserts for [v]. *)
Definition to_string (rt : JSRuntime) (v : jsval) : string :=
  match v with
  | JStr s => s
  | _ => js_ToString rt v
  end.

(** [const [x0, x1, ...] = v]: the elements of an iterable, [None] (a
    [TypeError]) when [v] is not iterable. *)
Definition iterate (v : jsval) : option (list jsval) :=
  match v with
  | JArr items => Some items
  | JStr s => Some (chars s)
  | _ => None
  end.

(** [JSON.parse(JSON.stringify(v))] on the representation: undefined fields
    are dropped, undefined array elements and non-finite numbers become null,
    a zero loses its sign (both zeros print as 0), and an undefined value at
    the top has no JSON text ([None]: [JSON.parse] throws a [SyntaxError]). *)
Definition json_number (x : float) : jsval :=
  if PrimFloat.is_nan x || PrimFloat.is_infinity x then JNull
  else if PrimFloat.eqb x 0%float then JNum 0%float
  else JNum x.

Fixpoint json_clone_in (v : jsval) : jsval :=
  match v with
  | JUndefined => JNull
  | JNum x => json_number x
  | JArr items => JArr (List.map json_clone_in items)
  | JObj fields =>
      JObj ((fix go (fs : list (string * jsval)) : list (string * jsval) :=
               match fs with
               | [] => []
               | (k, JUndefined) :: rest => go rest
               | (k, x) :: rest => (k, json_clone_in x) :: go rest
               end) fields)
  | _ => v
  end.

Definition json_clone (v : jsval) : option jsval :=
  match v with
  | JUndefined => None
  | _ => Some (json_clone_in v)
  end.

(** ** Messages *)

(** [OcppCall<any>] as [send] receives it and the outbox stores it. *)
Record OcppCall : Type := {
  messageId : string;
  action : string;
  payload : jsval
}.

(** The object literal [{ messageId, action, payload }] that [_onMessage]
    builds from a type 2 frame: its fields are whatever the frame held. *)
Record InboundCall : Type := {
  in_messageId : jsval;
  in_action : jsval;
  in_payload : jsval
}.

(** [OcppCallResult<any>]: [{ messageId, payload, action }]. *)
Record OcppCallResult : Type := {
  res_messageId : jsval;
  res_payload : jsval;
  res_action : string
}.

(** [OcppCallError<any>]. *)
Record OcppCallError : Type := {
  err_messageId : jsval;
  errorCode : jsval;
  errorDescription : jsval;
  errorDetails : jsval
}.

(** ** The world *)

Record VCPOptions : Type := {
  ocppVersion : string;
  endpoint : string;
  chargePointId : string;
  basicAuthPassword : option string;
  adminWsPort : option Z;
  adminHttpPort : option Z
}.

Record VCPState : Type := {
  currentStatus : jsval;
  activeTransactionId : jsval;
  sessionStartTime : jsval;
  meterValue : float;
  lastAction : string
}.

(** The socket that [connect] creates: where it points and how. *)
Record WebSocket : Type := {
  ws_url : string;
  ws_protocol : string;
  ws_auth : option string
}.

(** A client of the admin [WebSocketServer]; [client_open] is
    [client.readyState === WebSocket.OPEN]. *)
Record AdminClient : Type := {
  client_id : nat;
  client_open : bool
}.

Record VCP : Type := {
  vcpOptions : VCPOptions;
  ws : option WebSocket;
  adminWs : option (list AdminClient);
  state : VCPState;
  isFinishing : bool
}.

Record TransactionState : Type := {
  tx_transactionId : Z;
  tx_meterValue : float;
  tx_startedAt : Z;
  tx_connectorId : Z;
  meterValuesTimer : option nat
}.

(** The callback a [setInterval] holds. *)
Inductive TimerTask : Type :=
| MeterValuesTask (connectorId transactionId : Z)
| HeartbeatTask.

(** An interval armed by [setInterval(callback, period)]. *)
Record Timer : Type := {
  timer_task : TimerTask;
  timer_period : Z
}.

Inductive LogLine : Type :=
| LogConnecting
| LogAdminConnected
| LogAdminDisconnected
| LogSending (frame : jsval)
| LogResponding (frame : jsval)
| LogReceive (data : jsval)
| LogConnectionClosed (code : Z) (reason : string).

(** Calls on collaborators, in the order they are made. *)
Inductive Event : Type :=
| EvLog (line : LogLine)
| EvWsOpen (socket : WebSocket)
| EvWsSend (frame : jsval)
| EvWsClose
| EvAdminSend (client : nat) (message : jsval)
| EvAdminClose
| EvEnqueued (messageId : string)
| EvHandleCall (c : InboundCall)
| EvHandleCallResult (original : OcppCall) (r : OcppCallResult)
| EvHandleCallError (e : OcppCallError).

Record World : Type := {
  w_vcp : VCP;
  w_outbox : gmap string OcppCall;
  w_transactions : gmap string TransactionState;
  w_timers : gmap nat Timer;
  w_nextTimer : nat;
  w_clock : Z;
  w_trace : list Event
}.

Definition set_vcp (f : VCP -> VCP) (w : World) : World :=
  {| w_vcp := f (w_vcp w); w_outbox := w_outbox w;
     w_transactions := w_transactions w; w_timers := w_timers w;
     w_nextTimer := w_nextTimer w; w_clock := w_clock w;
     w_trace := w_trace w |}.

Definition set_outbox (f : gmap string OcppCall -> gmap string OcppCall)
    (w : World) : World :=
  {| w_vcp := w_vcp w; w_outbox := f (w_outbox w);
     w_transactions := w_transactions w; w_timers := w_timers w;
     w_nextTimer := w_nextTimer w; w_clock := w_clock w;
     w_trace := w_trace w |}.

Definition set_transactions
    (f : gmap string TransactionState -> gmap string TransactionState)
    (w : World) : World :=
  {| w_vcp := w_vcp w; w_outbox := w_outbox w;
     w_transactions := f (w_transactions w); w_timers := w_timers w;
     w_nextTimer := w_nextTimer w; w_clock := w_clock w;
     w_trace := w_trace w |}.

Definition set_timers (f : gmap nat Timer -> gmap nat Timer)
    (w : World) : World :=
  {| w_vcp := w_vcp w; w_outbox := w_outbox w;
     w_transactions := w_transactions w; w_timers := f (w_timers w);
     w_nextTimer := w_nextTimer w; w_clock := w_clock w;
     w_trace := w_trace w |}.

Definition set_nextTimer (n : nat) (w : World) : World :=
  {| w_vcp := w_vcp w; w_outbox := w_outbox w;
     w_transactions := w_transactions w; w_timers := w_timers w;
     w_nextTimer := n; w_clock := w_clock w; w_trace := w_trace w |}.

Definition set_clock (t : Z) (w : World) : World :=
  {| w_vcp := w_vcp w; w_outbox := w_outbox w;
     w_transactions := w_transactions w; w_timers := w_timers w;
     w_nextTimer := w_nextTimer w; w_clock := t; w_trace := w_trace w |}.

Definition append_events (evs : list Event) (w : World) : World :=
  {| w_vcp := w_vcp w; w_outbox := w_outbox w;
     w_transactions := w_transactions w; w_timers := w_timers w;
     w_nextTimer := w_nextTimer w; w_clock := w_clock w;
     w_trace := (w_trace w ++ evs)%list |}.

Definition add_event (e : Event) (w : World) : World := append_events [e] w.

Definition set_ws (s : option WebSocket) (v : VCP) : VCP :=
  {| vcpOptions := vcpOptions v; ws := s; adminWs := adminWs v;
     state := state v; isFinishing := isFinishing v |}.

Definition set_adminWs (a : option (list AdminClient)) (v : VCP) : VCP :=
  {| vcpOptions := vcpOptions v; ws := ws v; adminWs := a;
     state := state v; isFinishing := isFinishing v |}.

Definition set_isFinishing (b : bool) (v : VCP) : VCP :=
  {| vcpOptions := vcpOptions v; ws := ws v; adminWs := adminWs v;
     state := state v; isFinishing := b |}.

Definition set_state (f : VCPState -> VCPState) (v : VCP) : VCP :=
  {| vcpOptions := vcpOptions v; ws := ws v; adminWs := adminWs v;
     state := f (state v); isFinishing := isFinishing v |}.

(** ** The monad of methods *)

Definition M (A : Type) : Type := World -> Outcome A * World.

Definition ret {A} (a : A) : M A := fun w => (Ok a, w).

Definition bind {A B} (m : M A) (k : A -> M B) : M B :=
  fun w =>
    match m w with
    | (Ok a, w') => k a w'
    | (Throw e, w') => (Throw e, w')
    | (Exit c, w') => (Exit c, w')
    end.

Definition throw {A} (e : Exn) : M A := fun w => (Throw e, w).

(** [process.exit(code)]: nothing after it runs. *)
Definition process_exit {A} (code : Z) : M A := fun w => (Exit code, w).

Definition read {A} (f : World -> A) : M A := fun w => (Ok (f w), w).

Definition update (f : World -> World) : M unit := fun w => (Ok tt, f w).

Definition emit (e : Event) : M unit := update (add_event e).

(** A property access that may hit undefined or null. *)
Definition or_type_error {A} (o : option A) : M A :=
  match o with
  | Some a => ret a
  | None => throw TypeError
  end.

Notation "x <~ m ;; k" := (bind m (fun x => k))
  (at level 100, m at next level, right associativity).
Notation "m ;;; k" := (bind m (fun _ => k))
  (at level 100, right associativity).

Definition when (b : bool) (m : M unit) : M unit :=
  if b then m else ret tt.

(** The outcome and the final world of a run. *)
Definition outcome {A} (r : Outcome A * World) : Outcome A := fst r.
Definition world {A} (r : Outcome A * World) : World := snd r.

(** ** Collaborators *)

(** The interface [OcppMessageHandler]; the connection passed as first
    argument is the one of the world. *)
Record OcppMessageHandler : Type := {
  handleCall : InboundCall -> M unit;
  handleCallResult : OcppCall -> OcppCallResult -> M unit;
  handleCallError : OcppCallError -> M unit
}.

(** What [vcp.ts] and [transactionManager.ts] import and this development
    does not define: the two schema validators ([true]: the payload passes;
    [false]: the validator throws), the resolver of the message handler, the
    sub-protocol token of a version, and the charging power read from the
    environment when the module is loaded. *)
Record Collaborators : Type := {
  runtime : JSRuntime;
  validateOcppRequest : string -> jsval -> jsval -> bool;
  validateOcppResponse : string -> jsval -> jsval -> bool;
  resolveMessageHandler : string -> OcppMessageHandler;
  toProtocolVersion : string -> string;
  CHARGING_POWER_KW : float
}.

(** ** The outbox *)

Module ocppOutbox.

(** Modelled from the spec: the module [ocppOutbox] ([src/ocppOutbox.ts]),
    the pending-call ledger. "[enqueue(call)] inserts, overwriting is
    forbidden (duplicate id is a [DuplicateCallId] error)". *)
Definition enqueue (c : OcppCall) : M unit :=
  box <~ read w_outbox ;;
  match box !! messageId c with
  | Some _ => throw (DuplicateCallId (messageId c))
  | None =>
      update (set_outbox (insert (messageId c) c)) ;;;
      emit (EvEnqueued (messageId c))
  end.

(** The entry under a key of any type: the keys of the outbox are strings,
    so a key of another type finds nothing. *)
Definition entry (id : jsval) (box : gmap string OcppCall) : option OcppCall :=
  match id with
  | JStr s => box !! s
  | _ => None
  end.

(** Modelled from the spec: "[get(id)] for read-only inspection without
    consuming". *)
Definition get (id : jsval) : M (option OcppCall) :=
  box <~ read w_outbox ;;
  ret (entry id box).

(** Modelled from the spec: "[takeById(id) -> Call | NotFound] removes and
    returns the entry atomically". No method of [VCP] calls it. *)
Definition takeById (id : jsval) : M (option OcppCall) :=
  found <~ get id ;;
  match id, found with
  | JStr s, Some c => update (set_outbox (delete s)) ;;; ret (Some c)
  | _, _ => ret None
  end.

End ocppOutbox.

(** ** Numbers printed with a fixed number of decimals *)

(** The decimal digits of [n], padded on the left to more than [f] digits,
    with a point before the last [f]. *)
Definition fixed_digits (f : nat) (n : N) : string :=
  let m := pretty n in
  let k := String.length m in
  let m := if (k <=? f)%nat
           then String.string_of_list_ascii
                  (replicate (S f - k)%nat "0"%char) +:+ m
           else m in
  let k := String.length m in
  match f with
  | O => m
  | _ => String.substring 0 (k - f) m +:+ "." +:+ String.substring (k - f) f m
  end.

(** The integer [n] for which [n / 10^f] is closest to [m * 2^e]; of two
    such integers, the larger. *)
Definition nearest_scaled (f : nat) (m : positive) (e : Z) : Z :=
  if 0 <=? e then Zpos m * 2 ^ e * 10 ^ Z.of_nat f
  else (2 * Zpos m * 10 ^ Z.of_nat f + 2 ^ (- e)) / 2 ^ (1 - e).

(** [x.toFixed(f)] (Number.prototype.toFixed of ECMA-262). From 10^21 on,
    the digits are those of the runtime's conversion to a string. *)
Definition toFixed (rt : JSRuntime) (f : nat) (x : float) : string :=
  match Prim2SF x with
  | S754_nan => "NaN"
  | S754_infinity false => "Infinity"
  | S754_infinity true => "-Infinity"
  | S754_zero _ => fixed_digits f 0
  | S754_finite s m e =>
      (if s then "-" else "") +:+
      (if (0 <=? e) && (10 ^ 21 <=? Zpos m * 2 ^ e)
       then js_ToString rt (JNum (PrimFloat.abs x))
       else fixed_digits f (Z.to_N (nearest_scaled f m e)))
  end.

(** [JSON.stringify(v)], as the value its text parses to. *)
Definition JSON_stringify (v : jsval) : jsval := json_clone_in v.
Arguments JSON_stringify : simpl never.

(** ** The connection: class [VCP] of [src/vcp.ts] *)

Section Connection.

Context (env : Collaborators).

Definition initial_state : VCPState :=
  {| currentStatus := JStr "Unknown"; activeTransactionId := JNull;
     sessionStartTime := JNull; meterValue := 0%float; lastAction := "-" |}.

(** [this.state] as a value, for the messages that carry it. *)
Definition state_value (s : VCPState) : jsval :=
  JObj [("currentStatus", currentStatus s);
        ("activeTransactionId", activeTransactionId s);
        ("sessionStartTime", sessionStartTime s);
        ("meterValue", JNum (meterValue s));
        ("lastAction", JStr (lastAction s))].

(** [new VCP(vcpOptions)]: the admin server exists when the port is given and
    is not 0. The HTTP server of the dashboard is not part of the model. *)
Definition new_VCP (options : VCPOptions) : VCP :=
  {| vcpOptions := options;
     ws := None;
     adminWs := match adminWsPort options with
                | Some port => if port =? 0 then None else Some []
                | None => None
                end;
     state := initial_state;
     isFinishing := false |}.

(** [this.messageHandler], resolved by the constructor and never assigned
    again. *)
Definition messageHandler (v : VCP) : OcppMessageHandler :=
  resolveMessageHandler env (ocppVersion (vcpOptions v)).

Definition broadcastToAdminClients (message : jsval) : M unit :=
  v <~ read w_vcp ;;
  match adminWs v with
  | None => ret tt
  | Some clients =>
      let messageStr := JSON_stringify message in
      foldr (fun client rest =>
               when (client_open client)
                    (emit (EvAdminSend (client_id client) messageStr)) ;;;
               rest)
            (ret tt) clients
  end.

Definition broadcastStateUpdate : M unit :=
  v <~ read w_vcp ;;
  broadcastToAdminClients
    (JObj [("type", JStr "state_update"); ("data", state_value (state v))]).

Definition set_lastAction (s : string) (st : VCPState) : VCPState :=
  {| currentStatus := currentStatus st;
     activeTransactionId := activeTransactionId st;
     sessionStartTime := sessionStartTime st;
     meterValue := meterValue st; lastAction := s |}.

Definition set_currentStatus (x : jsval) (st : VCPState) : VCPState :=
  {| currentStatus := x;
     activeTransactionId := activeTransactionId st;
     sessionStartTime := sessionStartTime st;
     meterValue := meterValue st; lastAction := lastAction st |}.

Definition set_activeTransactionId (x : jsval) (st : VCPState) : VCPState :=
  {| currentStatus := currentStatus st;
     activeTransactionId := x;
     sessionStartTime := sessionStartTime st;
     meterValue := meterValue st; lastAction := lastAction st |}.

Definition set_sessionStartTime (x : jsval) (st : VCPState) : VCPState :=
  {| currentStatus := currentStatus st;
     activeTransactionId := activeTransactionId st;
     sessionStartTime := x;
     meterValue := meterValue st; lastAction := lastAction st |}.

Definition set_meterValue (x : float) (st : VCPState) : VCPState :=
  {| currentStatus := currentStatus st;
     activeTransactionId := activeTransactionId st;
     sessionStartTime := sessionStartTime st;
     meterValue := x; lastAction := lastAction st |}.

Definition assign (f : VCPState -> VCPState) : M unit :=
  update (set_vcp (set_state f)).

(** The block of [updateStateFromMessage] under "Track MeterValues", entered
    when the action is [MeterValues]. *)
Definition trackMeterValues (payload : jsval) : M unit :=
  let rt := runtime env in
  meterValues <~ or_type_error (get_prop payload "meterValue") ;;
  if negb (truthy meterValues) then ret tt else
  len <~ or_type_error (get_prop meterValues "length") ;;
  if negb (gt_zero rt len) then ret tt else
  first <~ or_type_error (get_first meterValues) ;;
  sampledValue <~ or_type_error (get_prop first "sampledValue") ;;
  if negb (truthy sampledValue) then ret tt else
  len' <~ or_type_error (get_prop sampledValue "length") ;;
  if negb (gt_zero rt len') then ret tt else
  sample <~ or_type_error (get_first sampledValue) ;;
  raw <~ or_type_error (get_prop sample "value") ;;
  let parsed := js_parseFloat rt (to_string rt raw) in
  let value := if truthy (JNum parsed) then parsed else 0%float in
  unit1 <~ or_type_error (get_prop sample "unit") ;;
  unit <~ (if truthy unit1 then ret unit1 else
           unitOfMeasure <~ or_type_error (get_prop sample "unitOfMeasure") ;;
           unit2 <~ (match unitOfMeasure with
                     | JUndefined | JNull => ret JUndefined
                     | _ => or_type_error (get_prop unitOfMeasure "unit")
                     end) ;;
           ret (js_or unit2 (JStr "Wh"))) ;;
  if strict_eq_str unit "kWh"
  then assign (set_meterValue (Math_round rt (value * 1000)%float))
  else assign (set_meterValue (Math_round rt value)).

Definition updateStateFromMessage (action payload : jsval)
    (direction : string) : M unit :=
  let rt := runtime env in
  assign (set_lastAction
            (to_string rt action +:+ " (" +:+ direction +:+ ")")) ;;;
  (if strict_eq_str action "StatusNotification" then
     status <~ or_type_error (get_prop payload "status") ;;
     when (truthy status) (assign (set_currentStatus status))
   else ret tt) ;;;
  when (strict_eq_str action "StopTransaction" && String.eqb direction "outgoing")
       (assign (set_activeTransactionId JNull) ;;;
        assign (set_sessionStartTime JNull) ;;;
        assign (set_meterValue 0%float)) ;;;
  (if strict_eq_str action "MeterValues" then trackMeterValues payload
   else ret tt) ;;;
  broadcastStateUpdate.

Definition updateStateFromCallResult (action : string) (payload : jsval)
    : M unit :=
  if String.eqb action "StartTransaction" then
    transactionId <~ or_type_error (get_prop payload "transactionId") ;;
    if truthy transactionId then
      assign (set_activeTransactionId transactionId) ;;;
      now <~ read w_clock ;;
      assign (set_sessionStartTime (JDate now)) ;;;
      broadcastStateUpdate
    else ret tt
  else ret tt.

(** [this.ws.send(text)] and [this.ws.close()]. *)
Definition ws_send (frame : jsval) : M unit :=
  v <~ read w_vcp ;;
  match ws v with
  | None => throw TypeError
  | Some _ => emit (EvWsSend frame)
  end.

Definition ws_close : M unit :=
  v <~ read w_vcp ;;
  match ws v with
  | None => throw TypeError
  | Some _ => emit EvWsClose
  end.

(** A call of a validator: it returns or it throws. *)
Definition validate (oracle : string -> jsval -> jsval -> bool)
    (action payload : jsval) : M unit :=
  v <~ read w_vcp ;;
  if oracle (ocppVersion (vcpOptions v)) action payload then ret tt
  else throw (SchemaViolation action payload).

(** [JSON.parse(JSON.stringify(payload))]. *)
Definition reparse (payload : jsval) : M jsval :=
  match json_clone payload with
  | Some p => ret p
  | None => throw SyntaxError
  end.

Definition connect : M unit :=
  emit (EvLog LogConnecting) ;;;
  update (set_vcp (set_isFinishing false)) ;;;
  v <~ read w_vcp ;;
  let options := vcpOptions v in
  let socket :=
    {| ws_url := endpoint options +:+ "/" +:+ chargePointId options;
       ws_protocol := toProtocolVersion env (ocppVersion options);
       ws_auth := match basicAuthPassword options with
                  | Some password =>
                      if String.eqb password "" then None
                      else Some (chargePointId options +:+ ":" +:+ password)
                  | None => None
                  end |} in
  update (set_vcp (set_ws (Some socket))) ;;;
  emit (EvWsOpen socket).

Definition send (ocppCall : OcppCall) : M unit :=
  v <~ read w_vcp ;;
  match ws v with
  | None => throw WebsocketNotInitialized
  | Some _ =>
      ocppOutbox.enqueue ocppCall ;;;
      let jsonMessage :=
        JSON_stringify (JArr [JNum 2%float; JStr (messageId ocppCall);
                              JStr (action ocppCall); payload ocppCall]) in
      emit (EvLog (LogSending jsonMessage)) ;;;
      copy <~ reparse (payload ocppCall) ;;
      validate (validateOcppRequest env) (JStr (action ocppCall)) copy ;;;
      ws_send jsonMessage ;;;
      updateStateFromMessage (JStr (action ocppCall)) (payload ocppCall)
                             "outgoing" ;;;
      now <~ read w_clock ;;
      broadcastToAdminClients
        (JObj [("type", JStr "ocpp_message_sent");
               ("direction", JStr "outgoing");
               ("data", JObj [("messageId", JStr (messageId ocppCall));
                              ("action", JStr (action ocppCall));
                              ("payload", payload ocppCall);
                              ("timestamp", JDate now)])])
  end.

Definition respond (result : OcppCallResult) : M unit :=
  v <~ read w_vcp ;;
  match ws v with
  | None => throw WebsocketNotInitialized
  | Some _ =>
      let jsonMessage :=
        JSON_stringify (JArr [JNum 3%float; res_messageId result;
                              res_payload result]) in
      emit (EvLog (LogResponding jsonMessage)) ;;;
      copy <~ reparse (res_payload result) ;;
      validate (validateOcppResponse env) (JStr (res_action result)) copy ;;;
      ws_send jsonMessage
  end.

Definition respondError (error : OcppCallError) : M unit :=
  v <~ read w_vcp ;;
  match ws v with
  | None => throw WebsocketNotInitialized
  | Some _ =>
      let jsonMessage :=
        JSON_stringify (JArr [JNum 4%float; err_messageId error;
                              errorCode error; errorDescription error;
                              errorDetails error]) in
      emit (EvLog (LogResponding jsonMessage)) ;;;
      ws_send jsonMessage
  end.

Definition close : M unit :=
  v <~ read w_vcp ;;
  match ws v with
  | None => throw CloseNotOpened
  | Some _ =>
      update (set_vcp (set_isFinishing true)) ;;;
      ws_close ;;;
      when (bool_decide (is_Some (adminWs v))) (emit EvAdminClose) ;;;
      update (set_vcp (set_ws None)) ;;;
      update (set_vcp (set_adminWs None)) ;;;
      process_exit 1
  end.

Definition _onClose (code : Z) (reason : string) : M unit :=
  v <~ read w_vcp ;;
  if isFinishing v then ret tt
  else emit (EvLog (LogConnectionClosed code reason)) ;;; process_exit 0.

(** The three calls on [this.messageHandler]. *)
Definition call_handleCall (c : InboundCall) : M unit :=
  v <~ read w_vcp ;;
  emit (EvHandleCall c) ;;;
  handleCall (messageHandler v) c.

Definition call_handleCallResult (original : OcppCall) (r : OcppCallResult)
    : M unit :=
  v <~ read w_vcp ;;
  emit (EvHandleCallResult original r) ;;;
  handleCallResult (messageHandler v) original r.

Definition call_handleCallError (e : OcppCallError) : M unit :=
  v <~ read w_vcp ;;
  emit (EvHandleCallError e) ;;;
  handleCallError (messageHandler v) e.

(** [_onMessage(message)], on [data = JSON.parse(message)]. *)
Definition _onMessage (data : jsval) : M unit :=
  emit (EvLog (LogReceive data)) ;;;
  items <~ or_type_error (iterate data) ;;
  let type := nth 0 items JUndefined in
  let rest := tail items in
  if strict_eq_num type 2%float then
    let messageId := nth 0 rest JUndefined in
    let action := nth 1 rest JUndefined in
    let payload := nth 2 rest JUndefined in
    now <~ read w_clock ;;
    broadcastToAdminClients
      (JObj [("type", JStr "ocpp_message_received");
             ("direction", JStr "incoming");
             ("data", JObj [("messageId", messageId);
                            ("action", action);
                            ("payload", payload);
                            ("timestamp", JDate now)])]) ;;;
    validate (validateOcppRequest env) action payload ;;;
    updateStateFromMessage action payload "incoming" ;;;
    call_handleCall {| in_messageId := messageId; in_action := action;
                       in_payload := payload |}
  else if strict_eq_num type 3%float then
    let messageId := nth 0 rest JUndefined in
    let payload := nth 1 rest JUndefined in
    found <~ ocppOutbox.get messageId ;;
    match found with
    | None => throw (UnknownCallResult messageId)
    | Some enqueuedCall =>
        updateStateFromCallResult (action enqueuedCall) payload ;;;
        now <~ read w_clock ;;
        broadcastToAdminClients
          (JObj [("type", JStr "ocpp_call_result");
                 ("direction", JStr "incoming");
                 ("data", JObj [("messageId", messageId);
                                ("action", JStr (action enqueuedCall));
                                ("payload", payload);
                                ("timestamp", JDate now)])]) ;;;
        validate (validateOcppResponse env) (JStr (action enqueuedCall))
                 payload ;;;
        call_handleCallResult enqueuedCall
          {| res_messageId := messageId; res_payload := payload;
             res_action := action enqueuedCall |}
    end
  else if strict_eq_num type 4%float then
    call_handleCallError
      {| err_messageId := nth 0 rest JUndefined;
         errorCode := nth 1 rest JUndefined;
         errorDescription := nth 2 rest JUndefined;
         errorDetails := nth 3 rest JUndefined |}
  else throw (UnrecognizedMessageType type).

(** The listeners of the admin server: a client that connects is told the
    connection and the state; a message of a client is sent as a call. *)
Definition admin_onConnection (id : nat) : M unit :=
  v <~ read w_vcp ;;
  match adminWs v with
  | None => ret tt
  | Some clients =>
      update (set_vcp (set_adminWs
        (Some (clients ++ [{| client_id := id; client_open := true |}])%list))) ;;;
      emit (EvLog LogAdminConnected) ;;;
      let options := vcpOptions v in
      broadcastToAdminClients
        (JObj [("type", JStr "connection_info");
               ("data", JObj [("chargePointId", JStr (chargePointId options));
                              ("ocppVersion", JStr (ocppVersion options));
                              ("endpoint", JStr (endpoint options));
                              ("status", JStr "connected")])]) ;;;
      emit (EvAdminSend id
              (JSON_stringify
                 (JObj [("type", JStr "initial_state");
                        ("data", state_value (state v))])))
  end.

Definition admin_onMessage (data : OcppCall) : M unit := send data.

(** ** Timers of the event loop *)

Definition setInterval (task : TimerTask) (period : Z) : M nat :=
  handle <~ read w_nextTimer ;;
  update (set_timers (insert handle
            {| timer_task := task; timer_period := period |})) ;;;
  update (set_nextTimer (S handle)) ;;;
  ret handle.

Definition clearInterval (handle : nat) : M unit :=
  update (set_timers (delete handle)).

Definition configureHeartbeat (interval : Z) : M unit :=
  setInterval HeartbeatTask interval ;;; ret tt.

(** ** The transaction simulator: class [TransactionManager] of
       [src/v16/transactionManager.ts] *)

Definition METER_VALUES_INTERVAL_SEC : Z := 60.

(** [transactionId.toString()]. *)
Definition key_of (transactionId : Z) : string := pretty transactionId.

Definition startTransaction (transactionId connectorId : Z) : M unit :=
  timer <~ setInterval (MeterValuesTask connectorId transactionId)
                       (METER_VALUES_INTERVAL_SEC * 1000) ;;
  now <~ read w_clock ;;
  update (set_transactions (insert (key_of transactionId)
            {| tx_transactionId := transactionId;
               tx_meterValue := 0%float;
               tx_startedAt := now;
               tx_connectorId := connectorId;
               meterValuesTimer := Some timer |})).

Definition stopTransaction (transactionId : Z) : M unit :=
  table <~ read w_transactions ;;
  match table !! key_of transactionId with
  | Some {| meterValuesTimer := Some timer |} => clearInterval timer
  | _ => ret tt
  end ;;;
  update (set_transactions (delete (key_of transactionId))).

Definition getMeterValue (transactionId : Z) : M float :=
  table <~ read w_transactions ;;
  match table !! key_of transactionId with
  | None => ret 0%float
  | Some transaction =>
      now <~ read w_clock ;;
      ret ((num_of_Z now - num_of_Z (tx_startedAt transaction)) / 1000)%float
  end.

Definition getMeterValueWh (transactionId : Z) : M float :=
  seconds <~ getMeterValue transactionId ;;
  ret (Math_floor (runtime env)
         (seconds / 3600 * CHARGING_POWER_KW env * 1000)%float).

(** Modelled from the spec: [call] of [src/messageFactory.ts], which makes
    the Call [{ id, action, payload }] of a freshly allocated id; the id is
    given by the caller of the model. *)
Definition call (id action : string) (payload : jsval) : OcppCall :=
  {| messageId := id; action := action; payload := payload |}.

(** The energy string of a telemetry call: [(seconds * CHARGING_POWER_KW /
    3600).toFixed(3)]. *)
Definition energy_kWh (seconds : float) : string :=
  toFixed (runtime env) 3 (seconds * CHARGING_POWER_KW env / 3600)%float.

(** The callback that [startTransaction] arms; [id] is the id that [call]
    allocates for this emission. *)
Definition meterValuesCallback (connectorId transactionId : Z) (id : string)
    : M unit :=
  now <~ read w_clock ;;
  seconds <~ getMeterValue transactionId ;;
  send (call id "MeterValues"
          (JObj [("connectorId", JNum (num_of_Z connectorId));
                 ("transactionId", JNum (num_of_Z transactionId));
                 ("meterValue",
                  JArr [JObj [("timestamp", JDate now);
                              ("sampledValue",
                               JArr [JObj [("value", JStr (energy_kWh seconds));
                                           ("measurand",
                                            JStr "Energy.Active.Import.Register");
                                           ("unit", JStr "kWh")]])]])])).

(** The event loop runs the callback of timer [handle]; a cleared timer has
    none. [heartbeat] is the payload that [call("Heartbeat")] gives a call
    made without one. *)
Definition fire (handle : nat) (id : string) (heartbeat : jsval) : M unit :=
  timers <~ read w_timers ;;
  match timers !! handle with
  | None => ret tt
  | Some {| timer_task := MeterValuesTask connectorId transactionId |} =>
      meterValuesCallback connectorId transactionId id
  | Some {| timer_task := HeartbeatTask |} =>
      send (call id "Heartbeat" heartbeat)
  end.

End Connection.

(** ** Vocabulary of the properties *)

(** The frame that [send] hands to the transport for a call. *)
Definition frame_of (c : OcppCall) : jsval :=
  JSON_stringify (JArr [JNum 2%float; JStr (messageId c); JStr (action c);
                        payload c]).

(** The message that [send] broadcasts to the admin clients at time [now]. *)
Definition sent_notice (c : OcppCall) (now : Z) : jsval :=
  JObj [("type", JStr "ocpp_message_sent");
        ("direction", JStr "outgoing");
        ("data", JObj [("messageId", JStr (messageId c));
                       ("action", JStr (action c));
                       ("payload", payload c);
                       ("timestamp", JDate now)])].

(** The message that [_onMessage] broadcasts for an inbound call. *)
Definition received_notice (messageId action payload : jsval) (now : Z)
    : jsval :=
  JObj [("type", JStr "ocpp_message_received");
        ("direction", JStr "incoming");
        ("data", JObj [("messageId", messageId);
                       ("action", action);
                       ("payload", payload);
                       ("timestamp", JDate now)])].

(** What one broadcast sends: the message to every open client, in order. *)
Definition admin_events (message : jsval) (server : option (list AdminClient))
    : list Event :=
  match server with
  | None => []
  | Some clients =>
      List.map (fun client => EvAdminSend (client_id client)
                                          (JSON_stringify message))
               (List.filter client_open clients)
  end.

Definition is_admin_send (e : Event) : Prop :=
  match e with
  | EvAdminSend _ _ => True
  | _ => False
  end.

Definition with_state (st : VCPState) (w : World) : World :=
  set_vcp (set_state (fun _ => st)) w.

(** [w'] is [w] with another [this.state] and more messages sent to admin
    clients; everything else is as in [w]. *)
Definition same_but_state (w w' : World) : Prop :=
  exists st evs,
    w' = append_events evs (with_state st w) /\ Forall is_admin_send evs.

Definition touches_state_only {A} (m : M A) : Prop :=
  forall w, same_but_state w (world (m w)).

(** What the properties ask of a method of the message handler, which may
    call back into the connection: it does not turn to another protocol
    version, it does not take entries out of the outbox, and what it does is
    added to the trace. *)
Definition well_behaved {A} (m : M A) : Prop :=
  forall w,
    ocppVersion (vcpOptions (w_vcp (world (m w))))
      = ocppVersion (vcpOptions (w_vcp w)) /\
    (forall id c, w_outbox w !! id = Some c ->
                  w_outbox (world (m w)) !! id = Some c) /\
    exists evs, w_trace (world (m w)) = (w_trace w ++ evs)%list.

Record respectful (h : OcppMessageHandler) : Prop := {
  respectful_call : forall c, well_behaved (handleCall h c);
  respectful_result : forall c r, well_behaved (handleCallResult h c r);
  respectful_error : forall e, well_behaved (handleCallError h e)
}.

(** The energy that a telemetry payload reports:
    [payload.meterValue[0].sampledValue[0].value]. *)
Definition reported_energy (payload : jsval) : option jsval :=
  meterValues ← get_prop payload "meterValue";
  first ← get_first meterValues;
  sampledValue ← get_prop first "sampledValue";
  sample ← get_first sampledValue;
  get_prop sample "value".

(** The telemetry call that the callback of a session makes at [now], for a
    session that started at [startedAt] (or for no session). *)
Definition elapsed_seconds (now : Z) (session : option TransactionState)
    : float :=
  match session with
  | None => 0%float
  | Some transaction =>
      ((num_of_Z now - num_of_Z (tx_startedAt transaction)) / 1000)%float
  end.

(** Operations on the transaction simulator, and the states they reach. *)
Inductive TxOp : Type :=
| Start (transactionId connectorId : Z)
| Stop (transactionId : Z).

Definition run_op (op : TxOp) : M unit :=
  match op with
  | Start transactionId connectorId =>
      startTransaction transactionId connectorId
  | Stop transactionId => stopTransaction transactionId
  end.

Fixpoint run_ops (ops : list TxOp) (w : World) : World :=
  match ops with
  | [] => w
  | op :: rest => run_ops rest (world (run_op op w))
  end.

(** A periodic emission task for [transactionId] is armed. *)
Definition task_active (transactionId : Z) (w : World) : Prop :=
  exists handle connectorId period,
    w_timers w !! handle
      = Some {| timer_task := MeterValuesTask connectorId transactionId;
                timer_period := period |}.

(** A session for [transactionId] is in the session table. *)
Definition session_present (transactionId : Z) (w : World) : Prop :=
  is_Some (w_transactions w !! key_of transactionId).

(** The sessions and their timers agree: every session of the table is filed
    under its own id, holds the handle of an armed timer that emits for it, no
    two sessions hold the same handle, and handles are allocated upwards. *)
Record sessions_armed (w : World) : Prop := {
  armed_timer :
    forall key transaction, w_transactions w !! key = Some transaction ->
      key = key_of (tx_transactionId transaction) /\
      exists handle period,
        meterValuesTimer transaction = Some handle /\
        w_timers w !! handle
          = Some {| timer_task :=
                      MeterValuesTask (tx_connectorId transaction)
                                      (tx_transactionId transaction);
                    timer_period := period |};
  armed_distinct :
    forall key1 key2 t1 t2 handle,
      w_transactions w !! key1 = Some t1 ->
      w_transactions w !! key2 = Some t2 ->
      meterValuesTimer t1 = Some handle ->
      meterValuesTimer t2 = Some handle -> key1 = key2;
  armed_below :
    forall handle, is_Some (w_timers w !! handle) ->
                   (handle < w_nextTimer w)%nat
}.

(** ** A concrete charge point *)

Module Sample.

(** A runtime of stubs: the runs below convert no value other than a string
    to a string, and what [parseFloat] returns only reaches
    [this.state.meterValue]. *)
Definition js : JSRuntime :=
  {| js_ToString := fun _ => "";
     js_ToNumber := fun _ => 0%float;
     js_parseFloat := fun _ => 0%float;
     Math_round := fun x => x;
     Math_floor := fun x => x |}.

(** A handler that does nothing of its own. *)
Definition handler : OcppMessageHandler :=
  {| handleCall := fun _ => ret tt;
     handleCallResult := fun _ _ => ret tt;
     handleCallError := fun _ => ret tt |}.

(** Schemas that accept the objects and nothing else, a charging power of
    22 kW. *)
Definition is_object (v : jsval) : bool :=
  match v with
  | JObj _ => true
  | _ => false
  end.

Definition env : Collaborators :=
  {| runtime := js;
     validateOcppRequest := fun _ _ payload => is_object payload;
     validateOcppResponse := fun _ _ payload => is_object payload;
     resolveMessageHandler := fun _ => handler;
     toProtocolVersion := fun version => version;
     CHARGING_POWER_KW := 22%float |}.

Definition options : VCPOptions :=
  {| ocppVersion := "OCPP_1.6";
     endpoint := "ws://localhost:3000";
     chargePointId := "CP-1";
     basicAuthPassword := None;
     adminWsPort := None;
     adminHttpPort := None |}.

(** The world of a charge point just constructed, and after [connect]. *)
Definition idle : World :=
  {| w_vcp := new_VCP options; w_outbox := ∅; w_transactions := ∅;
     w_timers := ∅; w_nextTimer := 0; w_clock := 0; w_trace := [] |}.

Definition open : World := world (connect env idle).

(** After [connect] and [close]. *)
Definition closed : World := world (close open).

(** A call sent and pending, and the result that answers it. *)
Definition startCall : OcppCall :=
  call "m1" "StartTransaction"
       (JObj [("connectorId", JNum 1%float); ("idTag", JStr "AABBCC")]).

Definition pending : World := world (send env startCall open).

Definition startResult : jsval :=
  JArr [JNum 3%float; JStr "m1"; JObj [("transactionId", JNum 7%float)]].

(** A result that answers no call, a call with a payload that is no object,
    and an inbound request with such a payload. *)
Definition strayResult : jsval :=
  JArr [JNum 3%float; JStr "m2"; JObj []].

Definition badCall : OcppCall := call "m3" "Authorize" (JStr "AABBCC").

Definition badRequest : jsval :=
  JArr [JNum 2%float; JStr "c1"; JStr "Reset"; JStr "Hard"].

(** A session of transaction 7 on connector 1, started at time 0, an hour
    later. *)
Definition charging : World :=
  set_clock 3600000 (world (startTransaction 7 1 open)).

End Sample.

(** The world in which [send] validates the payload of a call: the call is
    in the outbox and the frame is logged. *)
Definition enqueued (c : OcppCall) (w : World) : World :=
  add_event (EvLog (LogSending (frame_of c)))
    (add_event (EvEnqueued (messageId c))
       (set_outbox (insert (messageId c) c) w)).
Arguments enqueued : simpl never.

(** What [send] does once the frame is handed to the transport. *)
Definition after_transmission (env : Collaborators) (c : OcppCall) : M unit :=
  updateStateFromMessage env (JStr (action c)) (payload c) "outgoing" ;;;
  now <~ read w_clock ;;
  broadcastToAdminClients (sent_notice c now).

(** The message that [_onMessage] broadcasts for a result. *)
Definition result_notice (messageId : jsval) (action : string)
    (payload : jsval) (now : Z) : jsval :=
  JObj [("type", JStr "ocpp_call_result");
        ("direction", JStr "incoming");
        ("data", JObj [("messageId", messageId);
                       ("action", JStr action);
                       ("payload", payload);
                       ("timestamp", JDate now)])].

(** What [_onMessage] does with a result between the lookup of the call and
    the call of the handler. *)
Definition before_handler (env : Collaborators) (c : OcppCall)
    (messageId payload : jsval) : M unit :=
  updateStateFromCallResult (action c) payload ;;;
  now <~ read w_clock ;;
  broadcastToAdminClients (result_notice messageId (action c) payload now) ;;;
  validate (validateOcppResponse env) (JStr (action c)) payload.

(** How [before_handler] ends: it depends on the version, the action of the
    call and the payload of the result, and on nothing else. *)
Definition result_verdict (env : Collaborators) (version action : string)
    (payload : jsval) : Outcome unit :=
  if String.eqb action "StartTransaction"
     && negb (bool_decide (is_Some (get_prop payload "transactionId")))
  then Throw TypeError
  else if validateOcppResponse env version (JStr action) payload then Ok tt
  else Throw (SchemaViolation (JStr action) payload).

(** The result that [_onMessage] passes to the handler. *)
Definition result_for (c : OcppCall) (messageId payload : jsval)
    : OcppCallResult :=
  {| res_messageId := messageId; res_payload := payload;
     res_action := action c |}.

(** The calls of [handleCallResult] in a trace, oldest first. *)
Fixpoint handled_results (evs : list Event) : list (OcppCall * OcppCallResult) :=
  match evs with
  | [] => []
  | EvHandleCallResult c r :: rest => (c, r) :: handled_results rest
  | _ :: rest => handled_results rest
  end.

(** The frames handed to the transport in a trace, oldest first. *)
Fixpoint transmitted (evs : list Event) : list jsval :=
  match evs with
  | [] => []
  | EvWsSend frame :: rest => frame :: transmitted rest
  | _ :: rest => transmitted rest
  end.

(** The telemetry call of [meterValuesCallback] after [seconds] of charging. *)
Definition telemetry_call (env : Collaborators) (connectorId transactionId : Z)
    (id : string) (now : Z) (seconds : float) : OcppCall :=
  call id "MeterValues"
    (JObj [("connectorId", JNum (num_of_Z connectorId));
           ("transactionId", JNum (num_of_Z transactionId));
           ("meterValue",
            JArr [JObj [("timestamp", JDate now);
                        ("sampledValue",
                         JArr [JObj [("value", JStr (energy_kWh env seconds));
                                     ("measurand",
                                      JStr "Energy.Active.Import.Register");
                                     ("unit", JStr "kWh")]])]])]).

(** The payload of a call frame [[2, id, action, payload]]. *)
Definition frame_payload (frame : jsval) : jsval :=
  match frame with
  | JArr [_; _; _; payload] => payload
  | _ => JUndefined
  end.

(** The session that [startTransaction] files, and the timer it arms. *)
Definition new_session (transactionId connectorId : Z) (w : World)
    : TransactionState :=
  {| tx_transactionId := transactionId;
     tx_meterValue := 0%float;
     tx_startedAt := w_clock w;
     tx_connectorId := connectorId;
     meterValuesTimer := Some (w_nextTimer w) |}.

Definition new_timer (transactionId connectorId : Z) : Timer :=
  {| timer_task := MeterValuesTask connectorId transactionId;
     timer_period := METER_VALUES_INTERVAL_SEC * 1000 |}.

(** The timer that [stopTransaction] clears, if any. *)
Definition timer_of (transactionId : Z) (w : World) : option nat :=
  match w_transactions w !! key_of transactionId with
  | Some transaction => meterValuesTimer transaction
  | None => None
  end.

(** Runs of the transaction simulator in which no id is started while it has
    a session. *)
Fixpoint disciplined (ops : list TxOp) (w : World) : Prop :=
  match ops with
  | [] => True
  | Start transactionId connectorId :: rest =>
      w_transactions w !! key_of transactionId = None /\
      disciplined rest (world (startTransaction transactionId connectorId w))
  | Stop transactionId :: rest =>
      disciplined rest (world (stopTransaction transactionId w))
  end.

(** Every armed emission task is the timer of the session of its id. *)
Definition tasks_owned (w : World) : Prop :=
  forall handle connectorId transactionId period,
    w_timers w !! handle
    = Some {| timer_task := MeterValuesTask connectorId transactionId;
              timer_period := period |} ->
    exists transaction,
      w_transactions w !! key_of transactionId = Some transaction /\
      meterValuesTimer transaction = Some handle.

(** The messages sent to admin clients in a trace, with their recipients,
    oldest first. *)
Fixpoint admin_sends (evs : list Event) : list (nat * jsval) :=
  match evs with
  | [] => []
  | EvAdminSend client message :: rest => (client, message) :: admin_sends rest
  | _ :: rest => admin_sends rest
  end.

(** The frames that [respond] and [respondError] hand to the transport. *)
Definition result_frame (r : OcppCallResult) : jsval :=
  JSON_stringify (JArr [JNum 3%float; res_messageId r; res_payload r]).

Definition error_frame (e : OcppCallError) : jsval :=
  JSON_stringify (JArr [JNum 4%float; err_messageId e; errorCode e;
                        errorDescription e; errorDetails e]).

(** The error that [_onMessage] builds from a type 4 frame. *)
Definition error_of (rest : list jsval) : OcppCallError :=
  {| err_messageId := nth 0 rest JUndefined;
     errorCode := nth 1 rest JUndefined;
     errorDescription := nth 2 rest JUndefined;
     errorDetails := nth 3 rest JUndefined |}.

(** The call that [_onMessage] builds from a type 2 frame. *)
Definition call_of (rest : list jsval) : InboundCall :=
  {| in_messageId := nth 0 rest JUndefined;
     in_action := nth 1 rest JUndefined;
     in_payload := nth 2 rest JUndefined |}.

(** The number that [parseFloat(text) || 0] gives. *)
Definition parsed_or_zero (rt : JSRuntime) (text : string) : float :=
  let parsed := js_parseFloat rt text in
  if truthy (JNum parsed) then parsed else 0%float.

(** A charge point whose schemas accept every payload. *)
Module Lenient.

Definition env : Collaborators :=
  {| runtime := Sample.js;
     validateOcppRequest := fun _ _ _ => true;
     validateOcppResponse := fun _ _ _ => true;
     resolveMessageHandler := fun _ => Sample.handler;
     toProtocolVersion := fun version => version;
     CHARGING_POWER_KW := 22%float |}.

End Lenient.

(** ** The dashboard: [frontend/app.js] *)

(** [text.padStart(2, '0')]. *)
Definition padStart2 (text : string) : string :=
  String.string_of_list_ascii
    (replicate (2 - String.length text)%nat "0"%char) +:+ text.

(** [updateSessionDuration()], as the text it writes into the page at time
    [now], if any; [sessionStartTime] is [None] for [null] and the time value
    of the date otherwise. Time values are integers, and on integers less
    than 2^53 apart the divisions, remainders and [Math.floor] of the source
    are exact: [Math.floor(a / b)] is [a / b] and [a % b] is [Z.rem a b]. *)
Definition updateSessionDuration (sessionStartTime : option Z) (now : Z)
    : option string :=
  match sessionStartTime with
  | None => None
  | Some start =>
      let diff := (now - start) / 1000 in
      let hours := diff / 3600 in
      let minutes := Z.rem diff 3600 / 60 in
      let seconds := Z.rem diff 60 in
      Some (padStart2 (pretty hours) +:+ ":" +:+
            padStart2 (pretty minutes) +:+ ":" +:+
            padStart2 (pretty seconds))
  end.

(** * Properties *)

(** ** Worlds and runs *)

Lemma append_events_nil (w : World) : append_events [] w = w.
Proof. destruct w. unfold append_events. simpl. by rewrite app_nil_r. Qed.

Lemma append_events_app (a b : list Event) (w : World) :
  append_events b (append_events a w) = append_events (a ++ b) w.
Proof. unfold append_events. simpl. by rewrite app_assoc. Qed.

Lemma with_state_same (w : World) : with_state (state (w_vcp w)) w = w.
Proof. by destruct w as [[] ? ? ? ? ? ?]. Qed.

(** The world of a sequence is the world of its second part, when there is
    one. *)
Lemma world_bind {A B} (m : M A) (k : A -> M B) (w : World) :
  world (bind m k w) = world (m w) \/
  exists a, m w = (Ok a, world (m w)) /\
            world (bind m k w) = world (k a (world (m w))).
Proof.
  unfold bind. destruct (m w) as [[a | e | c] w'] eqn:E; simpl; eauto.
Qed.

(** ** Computations that touch [this.state] and the admin clients only *)

Lemma same_but_state_refl (w : World) : same_but_state w w.
Proof.
  exists (state (w_vcp w)), []. split; [|constructor].
  by rewrite with_state_same, append_events_nil.
Qed.

Lemma same_but_state_trans (w1 w2 w3 : World) :
  same_but_state w1 w2 -> same_but_state w2 w3 -> same_but_state w1 w3.
Proof.
  intros (st1 & evs1 & -> & F1) (st2 & evs2 & -> & F2).
  exists st2, (evs1 ++ evs2)%list. split.
  - unfold append_events, with_state, set_vcp, set_state. simpl.
    by rewrite app_assoc.
  - by apply Forall_app.
Qed.

Lemma tso_ret {A} (a : A) : touches_state_only (ret a).
Proof. intros w. apply same_but_state_refl. Qed.

Lemma tso_throw {A} (e : Exn) : touches_state_only (@throw A e).
Proof. intros w. apply same_but_state_refl. Qed.

Lemma tso_bind {A B} (m : M A) (k : A -> M B) :
  touches_state_only m -> (forall a, touches_state_only (k a)) ->
  touches_state_only (bind m k).
Proof.
  intros Hm Hk w. destruct (world_bind m k w) as [-> | (a & E & ->)].
  - apply Hm.
  - eapply same_but_state_trans; [apply Hm | apply Hk].
Qed.

Lemma tso_or_type_error {A} (o : option A) :
  touches_state_only (or_type_error o).
Proof. destruct o; [apply tso_ret | apply tso_throw]. Qed.

Lemma tso_read {A} (f : World -> A) : touches_state_only (read f).
Proof. intros w. apply same_but_state_refl. Qed.

Lemma tso_assign (f : VCPState -> VCPState) : touches_state_only (assign f).
Proof.
  intros w. exists (f (state (w_vcp w))), []. split; [|constructor].
  by rewrite append_events_nil.
Qed.

Lemma tso_when (b : bool) (m : M unit) :
  touches_state_only m -> touches_state_only (when b m).
Proof. destruct b; [done | intros _; apply tso_ret]. Qed.

(** A broadcast returns, and sends what [admin_events] says. *)
Lemma broadcast_clients_run (messageStr : jsval) (clients : list AdminClient)
    (w : World) :
  foldr (fun client rest =>
           when (client_open client)
                (emit (EvAdminSend (client_id client) messageStr)) ;;;
           rest)
        (ret tt) clients w
  = (Ok tt,
     append_events
       (List.map (fun client => EvAdminSend (client_id client) messageStr)
                 (List.filter client_open clients)) w).
Proof.
  revert w. induction clients as [|client clients IH]; intros w; simpl.
  - by rewrite append_events_nil.
  - destruct (client_open client); simpl.
    + unfold bind at 1. simpl. rewrite IH.
      unfold add_event. by rewrite append_events_app.
    + unfold bind at 1. simpl. by rewrite IH.
Qed.

Lemma broadcast_run (message : jsval) (w : World) :
  broadcastToAdminClients message w
  = (Ok tt, append_events (admin_events message (adminWs (w_vcp w))) w).
Proof.
  unfold broadcastToAdminClients, bind, read. simpl.
  destruct (adminWs (w_vcp w)) as [clients|]; simpl.
  - apply broadcast_clients_run.
  - by rewrite append_events_nil.
Qed.

Lemma admin_events_admin (message : jsval) (server : option (list AdminClient)) :
  Forall is_admin_send (admin_events message server).
Proof.
  destruct server as [clients|]; simpl; [|constructor].
  induction (List.filter client_open clients); simpl; by constructor.
Qed.

Lemma tso_broadcast (message : jsval) :
  touches_state_only (broadcastToAdminClients message).
Proof.
  intros w. rewrite broadcast_run. simpl.
  exists (state (w_vcp w)), (admin_events message (adminWs (w_vcp w))).
  split; [by rewrite with_state_same | apply admin_events_admin].
Qed.

Lemma tso_broadcastStateUpdate : touches_state_only broadcastStateUpdate.
Proof.
  unfold broadcastStateUpdate. apply tso_bind; [apply tso_read|].
  intros v. apply tso_broadcast.
Qed.

Create HintDb tso.
#[local] Hint Resolve tso_ret tso_throw tso_or_type_error tso_read tso_assign
  tso_when tso_broadcast tso_broadcastStateUpdate : tso.

Ltac tso :=
  repeat first
    [ solve [auto with tso]
    | apply tso_when
    | match goal with
      | |- touches_state_only (if ?b then _ else _) => destruct b
      | |- touches_state_only (match ?x with _ => _ end) => destruct x
      end
    | apply tso_bind; [|intros ?] ].

Lemma tso_trackMeterValues (env : Collaborators) (payload : jsval) :
  touches_state_only (trackMeterValues env payload).
Proof. unfold trackMeterValues. tso. Qed.

Lemma tso_updateStateFromMessage (env : Collaborators) (action payload : jsval)
    (direction : string) :
  touches_state_only (updateStateFromMessage env action payload direction).
Proof.
  unfold updateStateFromMessage. pose proof (tso_trackMeterValues env payload).
  tso.
Qed.

Lemma tso_updateStateFromCallResult (action : string) (payload : jsval) :
  touches_state_only (updateStateFromCallResult action payload).
Proof. unfold updateStateFromCallResult. tso. Qed.

Lemma same_but_state_outbox (w w' : World) :
  same_but_state w w' -> w_outbox w' = w_outbox w.
Proof. by intros (st & evs & -> & _). Qed.

Lemma same_but_state_options (w w' : World) :
  same_but_state w w' -> vcpOptions (w_vcp w') = vcpOptions (w_vcp w).
Proof. by intros (st & evs & -> & _). Qed.

Lemma same_but_state_trace (w w' : World) :
  same_but_state w w' ->
  exists evs, w_trace w' = (w_trace w ++ evs)%list /\ Forall is_admin_send evs.
Proof. intros (st & evs & -> & F). by exists evs. Qed.

(** ** The outbox *)

(** The operation of the spec that consumes: after one [takeById], a second
    one on the same id finds nothing. [_onMessage] calls [get], which leaves
    the outbox as it is. *)
Lemma takeById_once (id : jsval) (w : World) :
  outcome (ocppOutbox.takeById id (world (ocppOutbox.takeById id w))) = Ok None.
Proof.
  unfold ocppOutbox.takeById, ocppOutbox.get, bind, read, ret, update.
  destruct id as [| | | |s| | |]; try done. simpl.
  destruct (w_outbox w !! s) as [c|] eqn:E; simpl.
  - by rewrite lookup_delete_eq.
  - by rewrite E.
Qed.

Lemma get_keeps_outbox (id : jsval) (w : World) :
  ocppOutbox.get id w = (Ok (ocppOutbox.entry id (w_outbox w)), w).
Proof. reflexivity. Qed.

(** ** The outbound path *)

Lemma send_not_initialized (env : Collaborators) (c : OcppCall) (w : World) :
  ws (w_vcp w) = None -> send env c w = (Throw WebsocketNotInitialized, w).
Proof. intros H. unfold send, bind, read. simpl. by rewrite H. Qed.

Lemma send_duplicate (env : Collaborators) (c c' : OcppCall) (w : World) :
  is_Some (ws (w_vcp w)) ->
  w_outbox w !! messageId c = Some c' ->
  send env c w = (Throw (DuplicateCallId (messageId c)), w).
Proof.
  intros [s Hs] Hc. unfold send, bind, read. simpl. rewrite Hs.
  unfold ocppOutbox.enqueue, bind, read. simpl. by rewrite Hc.
Qed.

Lemma send_unprintable (env : Collaborators) (c : OcppCall) (w : World) :
  is_Some (ws (w_vcp w)) ->
  w_outbox w !! messageId c = None ->
  json_clone (payload c) = None ->
  send env c w = (Throw SyntaxError, enqueued c w).
Proof.
  intros [s Hs] Hc Hp. unfold send, bind, read. simpl. rewrite Hs.
  unfold ocppOutbox.enqueue, bind, read. simpl. rewrite Hc. simpl.
  unfold reparse. by rewrite Hp.
Qed.

Lemma send_rejected (env : Collaborators) (c : OcppCall) (w : World)
    (copy : jsval) :
  is_Some (ws (w_vcp w)) ->
  w_outbox w !! messageId c = None ->
  json_clone (payload c) = Some copy ->
  validateOcppRequest env (ocppVersion (vcpOptions (w_vcp w)))
                      (JStr (action c)) copy = false ->
  send env c w = (Throw (SchemaViolation (JStr (action c)) copy), enqueued c w).
Proof.
  intros [s Hs] Hc Hp Hv. unfold send, bind, read. simpl. rewrite Hs.
  unfold ocppOutbox.enqueue, bind, read. simpl. rewrite Hc. simpl.
  unfold reparse. rewrite Hp. simpl.
  unfold validate, bind, read. simpl. by rewrite Hv.
Qed.

Lemma send_accepted (env : Collaborators) (c : OcppCall) (w : World)
    (copy : jsval) :
  is_Some (ws (w_vcp w)) ->
  w_outbox w !! messageId c = None ->
  json_clone (payload c) = Some copy ->
  validateOcppRequest env (ocppVersion (vcpOptions (w_vcp w)))
                      (JStr (action c)) copy = true ->
  send env c w
  = after_transmission env c (add_event (EvWsSend (frame_of c)) (enqueued c w)).
Proof.
  intros [s Hs] Hc Hp Hv. unfold send. unfold bind at 1, read. simpl.
  rewrite Hs.
  unfold ocppOutbox.enqueue. unfold bind at 1 2, read. simpl. rewrite Hc.
  unfold bind at 1 2. simpl. unfold bind at 1. simpl.
  unfold bind at 1. unfold reparse. rewrite Hp. simpl.
  unfold bind at 1. unfold validate. unfold bind at 1, read. simpl.
  rewrite Hv. simpl.
  unfold bind at 1. unfold ws_send. unfold bind at 1, read. simpl.
  rewrite Hs. simpl. reflexivity.
Qed.

Lemma send_ok_inv (env : Collaborators) (c : OcppCall) (w : World) :
  outcome (send env c w) = Ok tt ->
  is_Some (ws (w_vcp w)) /\ w_outbox w !! messageId c = None /\
  exists copy,
    json_clone (payload c) = Some copy /\
    validateOcppRequest env (ocppVersion (vcpOptions (w_vcp w)))
                        (JStr (action c)) copy = true.
Proof.
  intros H.
  destruct (ws (w_vcp w)) as [s|] eqn:Hs;
    [|by rewrite send_not_initialized in H].
  assert (Hs' : is_Some (ws (w_vcp w))) by (rewrite Hs; eauto).
  destruct (w_outbox w !! messageId c) as [c'|] eqn:Hc;
    [by rewrite (send_duplicate env c c') in H|].
  destruct (json_clone (payload c)) as [copy|] eqn:Hp;
    [|by rewrite send_unprintable in H].
  destruct (validateOcppRequest env (ocppVersion (vcpOptions (w_vcp w)))
              (JStr (action c)) copy) eqn:Hv;
    [|by rewrite (send_rejected env c w copy) in H].
  eauto.
Qed.

Lemma tso_after_transmission (env : Collaborators) (c : OcppCall) :
  touches_state_only (after_transmission env c).
Proof.
  unfold after_transmission.
  pose proof (tso_updateStateFromMessage env (JStr (action c)) (payload c)
                "outgoing").
  tso.
Qed.

Lemma add_event_trace (e : Event) (w : World) :
  w_trace (add_event e w) = (w_trace w ++ [e])%list.
Proof. reflexivity. Qed.

Lemma enqueued_trace (c : OcppCall) (w : World) :
  w_trace (enqueued c w)
  = (w_trace w ++ [EvEnqueued (messageId c);
                   EvLog (LogSending (frame_of c))])%list.
Proof.
  unfold enqueued, add_event, append_events. simpl. by rewrite <- app_assoc.
Qed.

(** What a transmitting [send] leaves: the entry in the outbox, and a trace
    that grew by the enqueue, the log line, the frame, and messages to the
    admin clients. *)
Lemma send_accepted_world (env : Collaborators) (c : OcppCall) (w : World)
    (copy : jsval) :
  is_Some (ws (w_vcp w)) ->
  w_outbox w !! messageId c = None ->
  json_clone (payload c) = Some copy ->
  validateOcppRequest env (ocppVersion (vcpOptions (w_vcp w)))
                      (JStr (action c)) copy = true ->
  w_outbox (world (send env c w)) = insert (messageId c) c (w_outbox w) /\
  exists admin,
    Forall is_admin_send admin /\
    w_trace (world (send env c w))
    = (w_trace w ++ [EvEnqueued (messageId c); EvLog (LogSending (frame_of c));
                     EvWsSend (frame_of c)] ++ admin)%list.
Proof.
  intros Hs Hc Hp Hv. rewrite (send_accepted env c w copy) by done.
  pose proof (tso_after_transmission env c
                (add_event (EvWsSend (frame_of c)) (enqueued c w))) as T.
  split.
  - by rewrite (same_but_state_outbox _ _ T).
  - destruct (same_but_state_trace _ _ T) as (admin & -> & F).
    exists admin. split; [done|].
    rewrite add_event_trace, enqueued_trace. by rewrite <- !app_assoc.
Qed.

(** No frame is handed to the transport in a trace that is empty or made of
    an enqueue and a log line. *)
Ltac no_transmission :=
  let E := fresh "E" in
  intros [|? [|? [|? ?]]] ? ? E; simpl in E; discriminate E.

Lemma transmission_position (id : string) (line : LogLine) (frame f : jsval)
    (admin pre post : list Event) :
  Forall is_admin_send admin ->
  ([EvEnqueued id; EvLog line; EvWsSend frame] ++ admin
   = pre ++ EvWsSend f :: post)%list ->
  pre = [EvEnqueued id; EvLog line] /\ f = frame.
Proof.
  intros F E. destruct pre as [|p1 [|p2 [|p3 pre]]]; simpl in E.
  - discriminate.
  - discriminate.
  - by simplify_eq.
  - simplify_eq. apply Forall_app in F as [_ F].
    inversion F as [|? ? HF]. destruct HF.
Qed.



(** [C5] Whatever [send] adds to the trace, a frame handed to the transport is
    the frame of the call, the enqueue of its id comes before it, and the
    outbox holds the call under its id when [send] is over; and a [send] that
    returns has handed the frame to the transport. *)
Theorem send_enqueues_before_transmitting (env : Collaborators) (c : OcppCall)
    (w : World) :
  exists evs,
    w_trace (world (send env c w)) = (w_trace w ++ evs)%list /\
    (forall pre frame post,
        evs = (pre ++ EvWsSend frame :: post)%list ->
        frame = frame_of c /\
        In (EvEnqueued (messageId c)) pre /\
        w_outbox (world (send env c w)) !! messageId c = Some c) /\
    (outcome (send env c w) = Ok tt ->
     exists pre post, evs = (pre ++ EvWsSend (frame_of c) :: post)%list).
Proof.
  destruct (ws (w_vcp w)) as [s|] eqn:Hs.
  2: { exists []. rewrite send_not_initialized by done. simpl.
       rewrite app_nil_r. split; [done|]. split; [no_transmission | done]. }
  assert (Hs' : is_Some (ws (w_vcp w))) by (rewrite Hs; eauto).
  destruct (w_outbox w !! messageId c) as [c'|] eqn:Hc.
  { exists []. rewrite (send_duplicate env c c') by done. simpl.
    rewrite app_nil_r. split; [done|]. split; [no_transmission | done]. }
  destruct (json_clone (payload c)) as [copy|] eqn:Hp.
  2: { exists [EvEnqueued (messageId c); EvLog (LogSending (frame_of c))].
       rewrite send_unprintable by done. cbn [world outcome fst snd].
       rewrite enqueued_trace.
       split; [done|]. split; [no_transmission | done]. }
  destruct (validateOcppRequest env (ocppVersion (vcpOptions (w_vcp w)))
              (JStr (action c)) copy) eqn:Hv.
  2: { exists [EvEnqueued (messageId c); EvLog (LogSending (frame_of c))].
       rewrite (send_rejected env c w copy) by done.
       cbn [world outcome fst snd]. rewrite enqueued_trace. split; [done|].
       split; [no_transmission | done]. }
  destruct (send_accepted_world env c w copy) as (Hbox & admin & F & Ht);
    try done.
  exists ([EvEnqueued (messageId c); EvLog (LogSending (frame_of c));
           EvWsSend (frame_of c)] ++ admin)%list.
  split; [done|]. split.
  - intros pre frame post E.
    apply transmission_position in E as [-> ->]; [|done].
    split; [done|]. split; [by left|].
    rewrite Hbox. apply lookup_insert_eq.
  - intros _. by exists [EvEnqueued (messageId c);
                         EvLog (LogSending (frame_of c))], admin.
Qed.

(** A call that the sample charge point sends and transmits. *)
Example send_sample_transmits :
  outcome (send Sample.env Sample.startCall Sample.open) = Ok tt /\
  transmitted (w_trace Sample.pending) = [frame_of Sample.startCall] /\
  w_outbox Sample.pending !! "m1" = Some Sample.startCall.
Proof. by vm_compute. Qed.

(** [C4], as the code has it: for a call with a fresh id whose payload fails
    validation, [send] throws the violation to its caller and hands no frame
    to the transport (the trace grows by the enqueue and the log line only),
    and the entry enqueued for the call stays in the outbox. *)
Theorem send_rejected_entry_stays (env : Collaborators) (c : OcppCall)
    (w : World) (copy : jsval) :
  is_Some (ws (w_vcp w)) ->
  w_outbox w !! messageId c = None ->
  json_clone (payload c) = Some copy ->
  validateOcppRequest env (ocppVersion (vcpOptions (w_vcp w)))
                      (JStr (action c)) copy = false ->
  outcome (send env c w) = Throw (SchemaViolation (JStr (action c)) copy) /\
  w_trace (world (send env c w))
  = (w_trace w ++ [EvEnqueued (messageId c);
                   EvLog (LogSending (frame_of c))])%list /\
  w_outbox (world (send env c w)) = insert (messageId c) c (w_outbox w) /\
  w_outbox (world (send env c w)) !! messageId c = Some c.
Proof.
  intros Hs Hc Hp Hv. rewrite (send_rejected env c w copy) by done.
  cbn [world outcome fst snd]. rewrite enqueued_trace.
  repeat split. apply lookup_insert_eq.
Qed.

Lemma send_rejected_entry_stays_sample :
  outcome (send Sample.env Sample.badCall Sample.open)
  = Throw (SchemaViolation (JStr "Authorize") (JStr "AABBCC")) /\
  w_outbox (world (send Sample.env Sample.badCall Sample.open)) !! "m3"
  = Some Sample.badCall.
Proof.
  refine (let T := send_rejected_entry_stays Sample.env Sample.badCall
                     Sample.open (JStr "AABBCC") _ _ _ _ in
          conj (proj1 T) (proj2 (proj2 (proj2 T)))).
  - eexists. reflexivity.
  - reflexivity.
  - reflexivity.
  - reflexivity.
Defined.

(** [C4], as stated, fails: the rejected call of the sample charge point is
    in the outbox after [send], where it was not before. *)
Lemma send_rejected_not_rolled_back :
  outcome (send Sample.env Sample.badCall Sample.open)
  = Throw (SchemaViolation (JStr "Authorize") (JStr "AABBCC")) /\
  w_outbox Sample.open !! "m3" = None /\
  w_outbox (world (send Sample.env Sample.badCall Sample.open)) !! "m3"
  = Some Sample.badCall /\
  w_outbox (world (send Sample.env Sample.badCall Sample.open))
  <> w_outbox Sample.open.
Proof.
  repeat split; by vm_compute.
Qed.

(** ** The inbound path *)

Lemma bind_assoc {A B C} (m : M A) (k : A -> M B) (k' : B -> M C) (w : World) :
  bind (bind m k) k' w = bind m (fun a => bind (k a) k') w.
Proof. unfold bind. by destruct (m w) as [[a | e | c] w']. Qed.

Lemma bind_ext {A B} (m : M A) (k k' : A -> M B) (w : World) :
  (forall a w', k a w' = k' a w') -> bind m k w = bind m k' w.
Proof. intros H. unfold bind. by destruct (m w) as [[a | e | c] w']. Qed.

Lemma outcome_bind {A B} (m : M A) (k : A -> M B) (w : World) :
  outcome (bind m k w)
  = match outcome (m w) with
    | Ok a => outcome (k a (world (m w)))
    | Throw e => Throw e
    | Exit c => Exit c
    end.
Proof. unfold bind. by destruct (m w) as [[a | e | c] w']. Qed.

Lemma world_bind_ok {A B} (m : M A) (k : A -> M B) (w : World) (a : A) :
  outcome (m w) = Ok a -> world (bind m k w) = world (k a (world (m w))).
Proof.
  unfold bind. destruct (m w) as [[a' | e | c] w']; simpl; try done.
  by intros [= ->].
Qed.

Lemma world_bind_stop {A B} (m : M A) (k : A -> M B) (w : World) :
  (forall a, outcome (m w) <> Ok a) -> world (bind m k w) = world (m w).
Proof.
  unfold bind. destruct (m w) as [[a' | e | c] w']; simpl; try done.
  intros H. by destruct (H a').
Qed.

(** A result: the call is looked up, and without it the method throws. *)
Lemma onMessage_result (env : Collaborators) (w : World) (rest : list jsval) :
  let data := JArr (JNum 3%float :: rest) in
  let messageId := nth 0 rest JUndefined in
  let payload := nth 1 rest JUndefined in
  _onMessage env data w
  = match ocppOutbox.entry messageId (w_outbox w) with
    | None => (Throw (UnknownCallResult messageId),
               add_event (EvLog (LogReceive data)) w)
    | Some c =>
        (before_handler env c messageId payload ;;;
         call_handleCallResult env c (result_for c messageId payload))
          (add_event (EvLog (LogReceive data)) w)
    end.
Proof.
  intros data messageId payload. unfold _onMessage.
  unfold bind at 1. unfold emit, update. cbn [fst snd].
  unfold bind at 1. cbn [iterate or_type_error data ret].
  change (strict_eq_num (nth 0 (JNum 3%float :: rest) JUndefined) 2%float)
    with false.
  change (strict_eq_num (nth 0 (JNum 3%float :: rest) JUndefined) 3%float)
    with true.
  cbn [tail nth].
  unfold bind at 1. unfold ocppOutbox.get at 1.
  unfold bind at 1, read at 1, ret at 1.
  cbn [w_outbox add_event append_events].
  fold messageId payload.
  destruct (ocppOutbox.entry messageId (w_outbox w)) as [c|]; [|reflexivity].
  unfold before_handler, result_for, result_notice.
  rewrite bind_assoc. apply bind_ext. intros _ w1.
  rewrite bind_assoc. apply bind_ext. intros now w2.
  by rewrite bind_assoc.
Qed.

(** An inbound call: after the log line and the broadcast, the payload is
    validated, and only then is the state updated and the handler called. *)
Lemma onMessage_call (env : Collaborators) (w : World) (rest : list jsval) :
  let data := JArr (JNum 2%float :: rest) in
  let messageId := nth 0 rest JUndefined in
  let action := nth 1 rest JUndefined in
  let payload := nth 2 rest JUndefined in
  _onMessage env data w
  = (validate (validateOcppRequest env) action payload ;;;
     updateStateFromMessage env action payload "incoming" ;;;
     call_handleCall env {| in_messageId := messageId; in_action := action;
                            in_payload := payload |})
      (append_events
         (EvLog (LogReceive data)
          :: admin_events (received_notice messageId action payload (w_clock w))
                          (adminWs (w_vcp w)))
         w).
Proof.
  intros data messageId action payload. unfold _onMessage.
  unfold bind at 1. unfold emit, update. cbn [fst snd].
  unfold bind at 1. cbn [iterate or_type_error data ret].
  change (strict_eq_num (nth 0 (JNum 2%float :: rest) JUndefined) 2%float)
    with true.
  cbn [tail nth]. fold messageId action payload.
  unfold bind at 1, read at 1. unfold bind at 1.
  rewrite broadcast_run. unfold add_event. rewrite append_events_app.
  reflexivity.
Qed.

Lemma tso_validate (oracle : string -> jsval -> jsval -> bool)
    (action payload : jsval) :
  touches_state_only (validate oracle action payload).
Proof. unfold validate. tso. Qed.

Lemma tso_before_handler (env : Collaborators) (c : OcppCall)
    (messageId payload : jsval) :
  touches_state_only (before_handler env c messageId payload).
Proof.
  unfold before_handler.
  pose proof (tso_updateStateFromCallResult (action c) payload).
  pose proof (tso_validate (validateOcppResponse env) (JStr (action c)) payload).
  tso.
Qed.

Lemma validate_outcome (oracle : string -> jsval -> jsval -> bool)
    (action payload : jsval) (w : World) :
  outcome (validate oracle action payload w)
  = if oracle (ocppVersion (vcpOptions (w_vcp w))) action payload then Ok tt
    else Throw (SchemaViolation action payload).
Proof. unfold validate, bind, read. simpl. by destruct (oracle _ _ _). Qed.

Lemma updateStateFromCallResult_outcome (action : string) (payload : jsval)
    (w : World) :
  outcome (updateStateFromCallResult action payload w)
  = if String.eqb action "StartTransaction"
       && negb (bool_decide (is_Some (get_prop payload "transactionId")))
    then Throw TypeError else Ok tt.
Proof.
  unfold updateStateFromCallResult.
  destruct (String.eqb action "StartTransaction"); [|done].
  destruct (get_prop payload "transactionId") as [transactionId|]; [|done].
  rewrite bool_decide_true by eauto. cbn [andb negb or_type_error].
  unfold bind at 1. cbn [ret]. destruct (truthy transactionId); [|done].
  unfold broadcastStateUpdate, assign, update, bind, read.
  cbn [fst snd]. by rewrite broadcast_run.
Qed.

Lemma before_handler_outcome (env : Collaborators) (c : OcppCall)
    (messageId payload : jsval) (w : World) :
  outcome (before_handler env c messageId payload w)
  = result_verdict env (ocppVersion (vcpOptions (w_vcp w))) (action c) payload.
Proof.
  unfold before_handler, result_verdict.
  rewrite outcome_bind, updateStateFromCallResult_outcome.
  destruct (_ && _); [done|].
  pose proof (tso_updateStateFromCallResult (action c) payload w) as T.
  apply same_but_state_options in T.
  set (w1 := world (updateStateFromCallResult (action c) payload w)) in *.
  unfold bind at 1, read at 1. rewrite outcome_bind, broadcast_run.
  cbn [outcome world fst snd]. rewrite validate_outcome.
  cbn [append_events w_vcp]. by rewrite T.
Qed.

Lemma call_handleCallResult_run (env : Collaborators) (c : OcppCall)
    (r : OcppCallResult) (w : World) :
  call_handleCallResult env c r w
  = handleCallResult (messageHandler env (w_vcp w)) c r
      (add_event (EvHandleCallResult c r) w).
Proof. reflexivity. Qed.

(** The processing of a result whose call is in the outbox. *)
Lemma onMessage_result_found (env : Collaborators) (w : World) (id : string)
    (rest : list jsval) (c : OcppCall) :
  respectful (messageHandler env (w_vcp w)) ->
  w_outbox w !! id = Some c ->
  let version := ocppVersion (vcpOptions (w_vcp w)) in
  let payload := nth 0 rest JUndefined in
  let first := _onMessage env (JArr (JNum 3%float :: JStr id :: rest)) w in
  ocppVersion (vcpOptions (w_vcp (world first))) = version /\
  w_outbox (world first) !! id = Some c /\
  (outcome first = Ok tt ->
   result_verdict env version (action c) payload = Ok tt) /\
  (result_verdict env version (action c) payload = Ok tt ->
   exists evs,
     w_trace (world first) = (w_trace w ++ evs)%list /\
     In (EvHandleCallResult c (result_for c (JStr id) payload)) evs).
Proof.
  intros R Hc version payload first. subst first.
  rewrite (onMessage_result env w (JStr id :: rest)).
  cbn [nth ocppOutbox.entry]. rewrite Hc. fold payload.
  set (w0 := add_event _ w).
  set (r := result_for c (JStr id) payload).
  pose proof (tso_before_handler env c (JStr id) payload w0) as T.
  pose proof (before_handler_outcome env c (JStr id) payload w0) as V.
  change (ocppVersion (vcpOptions (w_vcp w0))) with version in V.
  set (w1 := world (before_handler env c (JStr id) payload w0)) in *.
  assert (Hv1 : ocppVersion (vcpOptions (w_vcp w1)) = version)
    by (by rewrite (same_but_state_options _ _ T)).
  assert (Hb1 : w_outbox w1 = w_outbox w)
    by (by rewrite (same_but_state_outbox _ _ T)).
  destruct (outcome (before_handler env c (JStr id) payload w0))
    as [[] | e | code] eqn:O.
  - rewrite outcome_bind, O. rewrite (world_bind_ok _ _ _ tt) by done.
    fold w1. rewrite call_handleCallResult_run.
    set (w2 := add_event (EvHandleCallResult c r) w1).
    assert (Hh : messageHandler env (w_vcp w1) = messageHandler env (w_vcp w))
      by (unfold messageHandler; by rewrite Hv1).
    rewrite Hh.
    destruct (respectful_result _ R c r w2) as (Hv2 & Hb2 & hevs & Ht2).
    split; [by rewrite Hv2|]. split.
    { apply Hb2. change (w_outbox w2) with (w_outbox w1). by rewrite Hb1. }
    split; [done|]. intros _.
    destruct (same_but_state_trace _ _ T) as (admin & Ht1 & _).
    exists ([EvLog (LogReceive (JArr (JNum 3%float :: JStr id :: rest)))]
            ++ admin ++ [EvHandleCallResult c r] ++ hevs)%list.
    split.
    + rewrite Ht2. subst w2. rewrite add_event_trace, Ht1.
      subst w0. rewrite add_event_trace. by rewrite <- !app_assoc.
    + apply in_or_app. right. apply in_or_app. right. by left.
  - rewrite outcome_bind, O. rewrite world_bind_stop by (intros a; by rewrite O).
    fold w1. rewrite Hv1, Hb1, <- V. by repeat split.
  - rewrite outcome_bind, O. rewrite world_bind_stop by (intros a; by rewrite O).
    fold w1. rewrite Hv1, Hb1, <- V. by repeat split.
Qed.

Lemma well_behaved_ret {A} (a : A) : well_behaved (ret a).
Proof.
  intros w. simpl. repeat split; [done|]. exists []. by rewrite app_nil_r.
Qed.

Lemma sample_handler_respectful : respectful Sample.handler.
Proof. split; intros; apply well_behaved_ret. Qed.

Lemma transmitted_app (a b : list Event) :
  transmitted (a ++ b) = (transmitted a ++ transmitted b)%list.
Proof.
  induction a as [|e a IH]; [done|]. destruct e; simpl; by rewrite ?IH.
Qed.

Lemma transmitted_admin (evs : list Event) :
  Forall is_admin_send evs -> transmitted evs = [].
Proof.
  induction 1 as [|e evs He _ IH]; [done|]. by destruct e.
Qed.

(** [C1], as the code has it: the processing of a result looks the call up
    and leaves it in the outbox (the handler is asked not to take entries
    out); so when a first processing has returned, a second processing of the
    same frame finds the same call and calls [handleCallResult] with it
    again. *)
Theorem result_lookup_does_not_consume (env : Collaborators) (w : World)
    (id : string) (rest : list jsval) (c : OcppCall) :
  respectful (messageHandler env (w_vcp w)) ->
  w_outbox w !! id = Some c ->
  let data := JArr (JNum 3%float :: JStr id :: rest) in
  let r := result_for c (JStr id) (nth 0 rest JUndefined) in
  let first := _onMessage env data w in
  let second := _onMessage env data (world first) in
  w_outbox (world first) !! id = Some c /\
  (outcome first = Ok tt ->
   exists evs1 evs2,
     w_trace (world first) = (w_trace w ++ evs1)%list /\
     In (EvHandleCallResult c r) evs1 /\
     w_trace (world second) = (w_trace (world first) ++ evs2)%list /\
     In (EvHandleCallResult c r) evs2).
Proof.
  intros R Hc data r first second. subst data first second.
  destruct (onMessage_result_found env w id rest c R Hc)
    as (Hv & Hb & Hok & Hev).
  cbv zeta in Hv, Hb, Hok, Hev. split; [done|]. intros O.
  specialize (Hok O). destruct (Hev Hok) as (evs1 & Ht1 & Hin1).
  set (first := _onMessage env (JArr (JNum 3%float :: JStr id :: rest)) w)
    in *.
  assert (R' : respectful (messageHandler env (w_vcp (world first)))).
  { unfold messageHandler in *. by rewrite Hv. }
  destruct (onMessage_result_found env (world first) id rest c R' Hb)
    as (_ & _ & _ & Hev2).
  cbv zeta in Hev2. rewrite Hv in Hev2. destruct (Hev2 Hok) as (evs2 & Ht2 & Hin2).
  by exists evs1, evs2.
Qed.

Lemma result_lookup_does_not_consume_sample :
  w_outbox (world (_onMessage Sample.env Sample.startResult Sample.pending))
    !! "m1" = Some Sample.startCall.
Proof.
  refine (proj1 (result_lookup_does_not_consume Sample.env Sample.pending "m1"
                   [JObj [("transactionId", JNum 7%float)]] Sample.startCall
                   _ _)).
  - exact sample_handler_respectful.
  - reflexivity.
Defined.

(** [C1], as stated, fails: the sample charge point processes the result of
    its pending call twice, the call is still in the outbox in between, and
    the handler is called both times. *)
Lemma result_processed_twice :
  let first := _onMessage Sample.env Sample.startResult Sample.pending in
  let second := _onMessage Sample.env Sample.startResult (world first) in
  let r := result_for Sample.startCall (JStr "m1")
             (JObj [("transactionId", JNum 7%float)]) in
  outcome first = Ok tt /\
  w_outbox (world first) !! "m1" = Some Sample.startCall /\
  outcome second = Ok tt /\
  handled_results (w_trace (world second))
  = [(Sample.startCall, r); (Sample.startCall, r)].
Proof. repeat split; by vm_compute. Qed.

(** [C2], as the code has it: a result whose id has no entry in the outbox
    makes [_onMessage] throw; the world is left as it was but for the log
    line of the frame, so no handler is called and the connection keeps its
    websocket. *)
Theorem result_without_call_throws (env : Collaborators) (w : World)
    (rest : list jsval) :
  ocppOutbox.entry (nth 0 rest JUndefined) (w_outbox w) = None ->
  _onMessage env (JArr (JNum 3%float :: rest)) w
  = (Throw (UnknownCallResult (nth 0 rest JUndefined)),
     add_event (EvLog (LogReceive (JArr (JNum 3%float :: rest)))) w).
Proof. intros H. rewrite onMessage_result. cbv zeta. by rewrite H. Qed.

Lemma result_without_call_throws_sample :
  _onMessage Sample.env Sample.strayResult Sample.pending
  = (Throw (UnknownCallResult (JStr "m2")),
     add_event (EvLog (LogReceive Sample.strayResult)) Sample.pending).
Proof.
  apply (result_without_call_throws Sample.env Sample.pending
           [JStr "m2"; JObj []]).
  reflexivity.
Defined.

(** [C2], as stated, fails: after the sample charge point has sent its call,
    a result with another id makes the receive path throw. *)
Lemma stray_result_escapes :
  ocppOutbox.entry (JStr "m2") (w_outbox Sample.pending) = None /\
  outcome (_onMessage Sample.env Sample.strayResult Sample.pending)
  = Throw (UnknownCallResult (JStr "m2")).
Proof. split; by vm_compute. Qed.

(** [C3], as the code has it: an inbound call whose payload fails validation
    makes [_onMessage] throw the violation; before that the frame is logged
    and broadcast to the admin clients, and nothing else happens: no frame is
    handed to the transport, the state is not updated and no handler is
    called. *)
Theorem rejected_call_propagates (env : Collaborators) (w : World)
    (rest : list jsval) :
  let data := JArr (JNum 2%float :: rest) in
  let messageId := nth 0 rest JUndefined in
  let action := nth 1 rest JUndefined in
  let payload := nth 2 rest JUndefined in
  validateOcppRequest env (ocppVersion (vcpOptions (w_vcp w))) action payload
  = false ->
  _onMessage env data w
  = (Throw (SchemaViolation action payload),
     append_events
       (EvLog (LogReceive data)
        :: admin_events (received_notice messageId action payload (w_clock w))
                        (adminWs (w_vcp w))) w) /\
  transmitted (w_trace (world (_onMessage env data w)))
  = transmitted (w_trace w).
Proof.
  intros data messageId action payload H.
  assert (E : _onMessage env data w
              = (Throw (SchemaViolation action payload),
                 append_events
                   (EvLog (LogReceive data)
                    :: admin_events
                         (received_notice messageId action payload (w_clock w))
                         (adminWs (w_vcp w))) w)).
  { subst data. rewrite onMessage_call. cbv zeta.
    unfold bind at 1, validate at 1. unfold bind at 1, read.
    cbn [fst snd append_events w_vcp].
    fold messageId action payload. by rewrite H. }
  split; [done|]. rewrite E. cbn [world snd append_events w_trace].
  rewrite transmitted_app. cbn [transmitted].
  rewrite (transmitted_admin (admin_events _ _)) by apply admin_events_admin.
  by rewrite app_nil_r.
Qed.

Lemma rejected_call_propagates_sample :
  outcome (_onMessage Sample.env Sample.badRequest Sample.open)
  = Throw (SchemaViolation (JStr "Reset") (JStr "Hard")).
Proof.
  refine (f_equal fst (proj1 (rejected_call_propagates Sample.env Sample.open
                                [JStr "c1"; JStr "Reset"; JStr "Hard"] _))).
  reflexivity.
Defined.

(** [C3], as stated, fails: the sample charge point receives a request that
    its schemas reject; the violation leaves the receive path and no frame,
    so no CallError, is handed to the transport. *)
Lemma rejected_request_unanswered :
  outcome (_onMessage Sample.env Sample.badRequest Sample.open)
  = Throw (SchemaViolation (JStr "Reset") (JStr "Hard")) /\
  transmitted (w_trace (world (_onMessage Sample.env Sample.badRequest
                                 Sample.open))) = [].
Proof. split; by vm_compute. Qed.

(** ** Closing *)


Lemma close_with_websocket (w : World) :
  is_Some (ws (w_vcp w)) ->
  outcome (close w) = Exit 1 /\
  ws (w_vcp (world (close w))) = None /\
  adminWs (w_vcp (world (close w))) = None /\
  isFinishing (w_vcp (world (close w))) = true.
Proof.
  intros [s Hs]. unfold close, bind, read. simpl. rewrite Hs. simpl.
  unfold ws_close, bind, read. simpl. rewrite Hs. simpl.
  by destruct (bool_decide _).
Qed.





(** ** The transaction simulator *)

Lemma startTransaction_run (transactionId connectorId : Z) (w : World) :
  startTransaction transactionId connectorId w
  = (Ok tt,
     set_transactions
       (insert (key_of transactionId)
               (new_session transactionId connectorId w))
       (set_nextTimer (S (w_nextTimer w))
          (set_timers
             (insert (w_nextTimer w) (new_timer transactionId connectorId))
             w))).
Proof. reflexivity. Qed.

Lemma stopTransaction_run (transactionId : Z) (w : World) :
  stopTransaction transactionId w
  = (Ok tt,
     set_transactions (delete (key_of transactionId))
       (match timer_of transactionId w with
        | Some timer => set_timers (delete timer) w
        | None => w
        end)).
Proof.
  unfold stopTransaction, timer_of, bind, read. simpl.
  by destruct (w_transactions w !! key_of transactionId)
    as [[? ? ? ? [timer|]]|].
Qed.

Lemma stopTransaction_absent (transactionId : Z) (w : World) :
  w_transactions w !! key_of transactionId = None ->
  stopTransaction transactionId w = (Ok tt, w).
Proof.
  intros H. rewrite stopTransaction_run. unfold timer_of. rewrite H.
  destruct w. unfold set_transactions. simpl in *. by rewrite delete_id.
Qed.

(** [C8] [stopTransaction] on an id that has no session returns and leaves
    the world as it is; and whatever the world, a second [stopTransaction] on
    the same id returns and leaves the world as the first one left it. *)
Theorem stopTransaction_idempotent (transactionId : Z) (w : World) :
  (w_transactions w !! key_of transactionId = None ->
   stopTransaction transactionId w = (Ok tt, w)) /\
  outcome (stopTransaction transactionId w) = Ok tt /\
  stopTransaction transactionId (world (stopTransaction transactionId w))
  = (Ok tt, world (stopTransaction transactionId w)).
Proof.
  split; [apply stopTransaction_absent|]. split.
  - by rewrite stopTransaction_run.
  - apply stopTransaction_absent. rewrite stopTransaction_run. simpl.
    apply lookup_delete_eq.
Qed.

Lemma stopTransaction_idempotent_sample :
  stopTransaction 7 Sample.open = (Ok tt, Sample.open).
Proof.
  apply (proj1 (stopTransaction_idempotent 7 Sample.open)). reflexivity.
Defined.

(** Sessions and timers agree at the start, and [startTransaction] and
    [stopTransaction] keep them so. *)
Lemma sessions_armed_empty (w : World) :
  w_transactions w = ∅ -> w_timers w = ∅ -> sessions_armed w.
Proof.
  intros Ht Hm. split.
  - intros key t. rewrite Ht. by rewrite lookup_empty.
  - intros key1 key2 t1 t2 handle. rewrite Ht. by rewrite lookup_empty.
  - intros handle. rewrite Hm, lookup_empty. by intros [? ?].
Qed.

Lemma session_timer_below (w : World) (key : string) (t : TransactionState)
    (handle : nat) :
  sessions_armed w ->
  w_transactions w !! key = Some t -> meterValuesTimer t = Some handle ->
  (handle < w_nextTimer w)%nat.
Proof.
  intros I Ht Hh. destruct (armed_timer w I key t Ht) as (_ & h & p & E & Hm).
  rewrite Hh in E. injection E as <-. apply (armed_below w I). by rewrite Hm.
Qed.

Lemma startTransaction_armed (transactionId connectorId : Z) (w : World) :
  sessions_armed w ->
  sessions_armed (world (startTransaction transactionId connectorId w)).
Proof.
  intros I. rewrite startTransaction_run. simpl. split; simpl.
  - intros key t [[<- <-] | [Hne Ht]]%lookup_insert_Some.
    + split; [done|]. exists (w_nextTimer w), (METER_VALUES_INTERVAL_SEC * 1000).
      split; [done|]. apply lookup_insert_eq.
    + destruct (armed_timer w I key t Ht) as (Hk & h & p & Hh & Hm).
      split; [done|]. exists h, p. split; [done|].
      rewrite lookup_insert_ne; [done|].
      pose proof (session_timer_below w key t h I Ht Hh). lia.
  - intros key1 key2 t1 t2 handle
      [[<- <-] | [Hne1 Ht1]]%lookup_insert_Some
      [[<- <-] | [Hne2 Ht2]]%lookup_insert_Some H1 H2; simpl in *.
    + done.
    + injection H1 as <-.
      pose proof (session_timer_below w key2 t2 _ I Ht2 H2). lia.
    + injection H2 as <-.
      pose proof (session_timer_below w key1 t1 _ I Ht1 H1). lia.
    + by apply (armed_distinct w I key1 key2 t1 t2 handle).
  - intros handle [t Ht]. destruct (decide (w_nextTimer w = handle)) as [<-|Hne].
    + lia.
    + rewrite lookup_insert_ne in Ht by done.
      assert (handle < w_nextTimer w)%nat by (apply (armed_below w I); eauto).
      lia.
Qed.

Lemma stopTransaction_armed (transactionId : Z) (w : World) :
  sessions_armed w -> sessions_armed (world (stopTransaction transactionId w)).
Proof.
  intros I. rewrite stopTransaction_run. simpl.
  unfold timer_of.
  destruct (w_transactions w !! key_of transactionId) as [t0|] eqn:E0;
    [destruct (meterValuesTimer t0) as [h0|] eqn:Eh0|]; split; simpl.
  - intros key t [Hne Ht]%lookup_delete_Some.
    destruct (armed_timer w I key t Ht) as (Hk & h & p & Hh & Hm).
    split; [done|]. exists h, p. split; [done|].
    rewrite lookup_delete_ne; [done|]. intros <-.
    apply Hne. by apply (armed_distinct w I _ _ t0 t h0).
  - intros key1 key2 t1 t2 handle [_ Ht1]%lookup_delete_Some
      [_ Ht2]%lookup_delete_Some.
    by apply (armed_distinct w I).
  - intros handle [t Ht]. apply lookup_delete_Some in Ht as [_ Ht].
    apply (armed_below w I). eauto.
  - intros key t [Hne Ht]%lookup_delete_Some. by apply (armed_timer w I).
  - intros key1 key2 t1 t2 handle [_ Ht1]%lookup_delete_Some
      [_ Ht2]%lookup_delete_Some.
    by apply (armed_distinct w I).
  - apply (armed_below w I).
  - intros key t [Hne Ht]%lookup_delete_Some. by apply (armed_timer w I).
  - intros key1 key2 t1 t2 handle [_ Ht1]%lookup_delete_Some
      [_ Ht2]%lookup_delete_Some.
    by apply (armed_distinct w I).
  - apply (armed_below w I).
Qed.

Lemma run_ops_armed (ops : list TxOp) (w : World) :
  sessions_armed w -> sessions_armed (run_ops ops w).
Proof.
  revert w. induction ops as [|[t c | t] ops IH]; intros w I; simpl; [done|..].
  - apply IH. by apply startTransaction_armed.
  - apply IH. by apply stopTransaction_armed.
Qed.

(** One half of the invariant holds in every reachable state: a session in
    the table has its emission task armed. *)
Lemma session_has_task (ops : list TxOp) (w : World) (transactionId : Z) :
  sessions_armed w ->
  session_present transactionId (run_ops ops w) ->
  task_active transactionId (run_ops ops w).
Proof.
  intros I [t Ht]. apply (run_ops_armed ops) in I.
  destruct (armed_timer _ I _ t Ht) as (Hk & h & p & _ & Hm).
  apply (inj pretty) in Hk. rewrite <- Hk in Hm.
  by exists h, (tx_connectorId t), p.
Qed.

(** [C7] The other half fails. Transaction 7 is started twice and stopped
    once, which clears the second timer and removes the session; the first
    timer, whose handle the second start overwrote, stays armed for an id that
    has no session. *)
Theorem orphan_timer_after_restart :
  let w := run_ops [Start 7 1; Start 7 1; Stop 7] Sample.idle in
  sessions_armed Sample.idle /\
  w_timers w !! 0%nat = Some (new_timer 7 1) /\
  task_active 7 w /\
  ~ session_present 7 w.
Proof.
  split; [by apply sessions_armed_empty|]. split; [by vm_compute|]. split.
  - exists 0%nat, 1, (METER_VALUES_INTERVAL_SEC * 1000). by vm_compute.
  - intros [t Ht]. by vm_compute in Ht.
Qed.

(** ** Telemetry *)

Lemma fire_meterValues (env : Collaborators) (w : World) (handle : nat)
    (connectorId transactionId period : Z) (id : string) (heartbeat : jsval) :
  w_timers w !! handle
  = Some {| timer_task := MeterValuesTask connectorId transactionId;
            timer_period := period |} ->
  fire env handle id heartbeat w
  = meterValuesCallback env connectorId transactionId id w.
Proof. intros H. unfold fire, bind, read. simpl. by rewrite H. Qed.

Lemma meterValuesCallback_run (env : Collaborators) (w : World)
    (connectorId transactionId : Z) (id : string) :
  meterValuesCallback env connectorId transactionId id w
  = send env
      (telemetry_call env connectorId transactionId id (w_clock w)
         (elapsed_seconds (w_clock w)
            (w_transactions w !! key_of transactionId)))
      w.
Proof.
  unfold meterValuesCallback, getMeterValue. unfold bind at 1 2 3, read.
  cbn [fst snd].
  destruct (w_transactions w !! key_of transactionId) as [t|]; reflexivity.
Qed.

Lemma send_ok_transmitted (env : Collaborators) (c : OcppCall) (w : World) :
  outcome (send env c w) = Ok tt ->
  transmitted (w_trace (world (send env c w)))
  = (transmitted (w_trace w) ++ [frame_of c])%list.
Proof.
  intros (Hs & Hc & copy & Hp & Hv)%send_ok_inv.
  destruct (send_accepted_world env c w copy) as (_ & admin & F & ->);
    try done.
  rewrite !transmitted_app. cbn [transmitted].
  by rewrite (transmitted_admin admin), app_nil_r.
Qed.

(** [C6] When the timer of a session fires, the callback sends a
    [MeterValues] call whose sampled value is the elapsed seconds times the
    charging power over 3600, printed with three decimals; the frame handed to
    the transport carries that value; and with 22 kW and 3600 elapsed seconds
    the value is "22.000". The arithmetic is that of binary64 numbers. *)
Theorem telemetry_reports_energy (env : Collaborators) (w : World)
    (handle : nat) (connectorId transactionId period : Z) (id : string)
    (heartbeat : jsval) (session : TransactionState) :
  w_timers w !! handle
  = Some {| timer_task := MeterValuesTask connectorId transactionId;
            timer_period := period |} ->
  w_transactions w !! key_of transactionId = Some session ->
  let seconds :=
    ((num_of_Z (w_clock w) - num_of_Z (tx_startedAt session)) / 1000)%float in
  let energy :=
    toFixed (runtime env) 3 (seconds * CHARGING_POWER_KW env / 3600)%float in
  let emission := fire env handle id heartbeat w in
  exists c,
    emission = send env c w /\
    messageId c = id /\
    action c = "MeterValues" /\
    reported_energy (payload c) = Some (JStr energy) /\
    reported_energy (frame_payload (frame_of c)) = Some (JStr energy) /\
    (outcome emission = Ok tt ->
     transmitted (w_trace (world emission))
     = (transmitted (w_trace w) ++ [frame_of c])%list) /\
    (CHARGING_POWER_KW env = 22%float -> seconds = 3600%float ->
     energy = "22.000").
Proof.
  intros Hm Ht seconds energy emission. subst emission.
  rewrite (fire_meterValues env w handle connectorId transactionId period)
    by done.
  rewrite meterValuesCallback_run, Ht. cbn [elapsed_seconds]. fold seconds.
  eexists. split; [reflexivity|]. split; [reflexivity|].
  split; [reflexivity|]. split; [reflexivity|]. split; [reflexivity|].
  split; [apply send_ok_transmitted|].
  intros HP Hs. subst energy. rewrite HP, Hs. reflexivity.
Qed.

Lemma telemetry_reports_energy_sample :
  exists c,
    fire Sample.env 0 "m4" (JObj []) Sample.charging
    = send Sample.env c Sample.charging /\
    reported_energy (payload c) = Some (JStr "22.000").
Proof.
  destruct (telemetry_reports_energy Sample.env Sample.charging 0 1 7 60000
              "m4" (JObj []) (new_session 7 1 Sample.open)
              eq_refl eq_refl)
    as (c & Hfire & _ & _ & Henergy & _ & _ & H22).
  exists c. split; [exact Hfire|].
  rewrite Henergy. rewrite H22 by reflexivity. reflexivity.
Defined.

(** The same emission, run: the frame handed to the transport reports
    "22.000". *)
Example telemetry_sample_frame :
  let emission := fire Sample.env 0 "m4" (JObj []) Sample.charging in
  outcome emission = Ok tt /\
  List.map (fun frame => reported_energy (frame_payload frame))
           (transmitted (w_trace (world emission)))
  = [Some (JStr "22.000")].
Proof. split; by vm_compute. Qed.

(** * Further properties of the code *)

(** ** The transaction simulator: sessions and timers *)

Lemma tasks_owned_empty (w : World) : w_timers w = ∅ -> tasks_owned w.
Proof. intros H handle c t p. by rewrite H, lookup_empty. Qed.

Lemma startTransaction_owned (transactionId connectorId : Z) (w : World) :
  w_transactions w !! key_of transactionId = None ->
  tasks_owned w ->
  tasks_owned (world (startTransaction transactionId connectorId w)).
Proof.
  intros Hnone I handle c t p. rewrite startTransaction_run. simpl.
  intros [[<- E] | [Hne Hm]]%lookup_insert_Some.
  - injection E as <- <- <-.
    exists (new_session transactionId connectorId w).
    split; [apply lookup_insert_eq | done].
  - destruct (I handle c t p Hm) as (transaction & Ht & Hh).
    exists transaction. split; [|done].
    rewrite lookup_insert_ne; [done|]. intros E. rewrite E in Hnone.
    by rewrite Hnone in Ht.
Qed.

Lemma stopTransaction_owned (transactionId : Z) (w : World) :
  tasks_owned w -> tasks_owned (world (stopTransaction transactionId w)).
Proof.
  intros I handle c t p. rewrite stopTransaction_run. unfold timer_of.
  destruct (w_transactions w !! key_of transactionId) as [t0|] eqn:E0;
    [destruct (meterValuesTimer t0) as [h0|] eqn:Eh0|]; simpl; intros Hm.
  - apply lookup_delete_Some in Hm as [Hne Hm].
    destruct (I handle c t p Hm) as (transaction & Ht & Hh).
    exists transaction. split; [|done].
    rewrite lookup_delete_ne; [done|]. intros E. rewrite <- E in Ht.
    rewrite E0 in Ht. injection Ht as <-. rewrite Eh0 in Hh. by injection Hh.
  - destruct (I handle c t p Hm) as (transaction & Ht & Hh).
    exists transaction. split; [|done].
    rewrite lookup_delete_ne; [done|]. intros E. rewrite <- E in Ht.
    rewrite E0 in Ht. injection Ht as <-. by rewrite Eh0 in Hh.
  - destruct (I handle c t p Hm) as (transaction & Ht & Hh).
    exists transaction. split; [|done].
    rewrite lookup_delete_ne; [done|]. intros E. rewrite <- E in Ht.
    by rewrite E0 in Ht.
Qed.

Lemma disciplined_owned (ops : list TxOp) (w : World) :
  tasks_owned w -> disciplined ops w -> tasks_owned (run_ops ops w).
Proof.
  revert w. induction ops as [|[t c | t] ops IH]; intros w I D; simpl in *.
  - done.
  - destruct D as [Hnone D]. apply IH; [|done]. by apply startTransaction_owned.
  - apply IH; [|done]. by apply stopTransaction_owned.
Qed.

(** [X1] As long as no transaction is started while it has a session, the
    invariant of the simulator holds in every state that [startTransaction]
    and [stopTransaction] reach: an emission task for an id is armed if and
    only if a session with that id is in the table. *)
Theorem disciplined_runs_pair_tasks_and_sessions (ops : list TxOp) (w : World)
    (transactionId : Z) :
  sessions_armed w -> tasks_owned w -> disciplined ops w ->
  task_active transactionId (run_ops ops w)
  <-> session_present transactionId (run_ops ops w).
Proof.
  intros A I D. split.
  - intros (handle & c & p & Hm).
    destruct (disciplined_owned ops w I D handle c transactionId p Hm)
      as (transaction & Ht & _).
    by exists transaction.
  - by apply session_has_task.
Qed.

Lemma disciplined_runs_pair_sample :
  task_active 8 (run_ops [Start 7 1; Stop 7; Start 7 2; Start 8 1] Sample.idle)
  <-> session_present 8
        (run_ops [Start 7 1; Stop 7; Start 7 2; Start 8 1] Sample.idle).
Proof.
  apply (disciplined_runs_pair_tasks_and_sessions
           [Start 7 1; Stop 7; Start 7 2; Start 8 1] Sample.idle 8).
  - by apply sessions_armed_empty.
  - by apply tasks_owned_empty.
  - repeat split; reflexivity.
Defined.

(** [X2] Starting a transaction that has no session and stopping it again
    leaves the session table and the armed timers as they were: the timer
    that the start armed is the one that the stop clears. Only the next
    handle has moved on. *)
Theorem start_then_stop_restores (transactionId connectorId : Z) (w : World) :
  sessions_armed w ->
  w_transactions w !! key_of transactionId = None ->
  let w' := world (stopTransaction transactionId
                     (world (startTransaction transactionId connectorId w))) in
  w_transactions w' = w_transactions w /\
  w_timers w' = w_timers w /\
  w_nextTimer w' = S (w_nextTimer w).
Proof.
  intros A Hnone. cbv zeta.
  rewrite stopTransaction_run, startTransaction_run. unfold timer_of. simpl.
  rewrite lookup_insert_eq. simpl. repeat split.
  - by apply delete_insert_id.
  - apply delete_insert_id.
    destruct (w_timers w !! w_nextTimer w) as [t|] eqn:E; [|done].
    assert (w_nextTimer w < w_nextTimer w)%nat
      by (apply (armed_below w A); by rewrite E).
    lia.
Qed.

Lemma start_then_stop_restores_sample :
  w_timers (world (stopTransaction 7 (world (startTransaction 7 1 Sample.open))))
  = w_timers Sample.open.
Proof.
  refine (proj1 (proj2 (start_then_stop_restores 7 1 Sample.open _ _))).
  - by apply sessions_armed_empty.
  - reflexivity.
Defined.

(** [X3] After [stopTransaction], the timer that the session held does not
    fire any more: its handle has no callback, so no telemetry call is made
    and the world stays as the stop left it. *)
Theorem stopped_timer_is_silent (env : Collaborators) (transactionId : Z)
    (w : World) (session : TransactionState) (handle : nat) (id : string)
    (heartbeat : jsval) :
  w_transactions w !! key_of transactionId = Some session ->
  meterValuesTimer session = Some handle ->
  fire env handle id heartbeat (world (stopTransaction transactionId w))
  = (Ok tt, world (stopTransaction transactionId w)).
Proof.
  intros Ht Hh. rewrite stopTransaction_run. unfold timer_of. rewrite Ht, Hh.
  unfold fire, bind, read. simpl. by rewrite lookup_delete_eq.
Qed.

Lemma stopped_timer_is_silent_sample :
  fire Sample.env 0 "m4" (JObj []) (world (stopTransaction 7 Sample.charging))
  = (Ok tt, world (stopTransaction 7 Sample.charging)).
Proof.
  apply (stopped_timer_is_silent Sample.env 7 Sample.charging
           (new_session 7 1 Sample.open) 0 "m4" (JObj [])); reflexivity.
Defined.

Lemma stopTransaction_table (transactionId : Z) (w : World) :
  w_transactions (world (stopTransaction transactionId w))
  = delete (key_of transactionId) (w_transactions w).
Proof.
  rewrite stopTransaction_run. simpl. by destruct (timer_of transactionId w).
Qed.

(** [X4] Stopping one transaction leaves every other session in the table
    with its emission task armed. *)
Theorem stop_spares_other_sessions (stopped other : Z) (w : World) :
  sessions_armed w -> stopped <> other -> session_present other w ->
  session_present other (world (stopTransaction stopped w)) /\
  task_active other (world (stopTransaction stopped w)).
Proof.
  intros A Hne [t Ht].
  assert (P : session_present other (world (stopTransaction stopped w))).
  { exists t. rewrite stopTransaction_table.
    rewrite lookup_delete_ne; [done|]. intros E. by apply (inj pretty) in E. }
  split; [done|].
  apply (session_has_task [Stop stopped] w other A P).
Qed.

Lemma stop_spares_other_sessions_sample :
  task_active 7
    (world (stopTransaction 8
              (run_ops [Start 7 1; Start 8 2] Sample.open))).
Proof.
  refine (proj2 (stop_spares_other_sessions 8 7
                   (run_ops [Start 7 1; Start 8 2] Sample.open) _ _ _)).
  - apply run_ops_armed. by apply sessions_armed_empty.
  - done.
  - eexists. reflexivity.
Defined.

Lemma configureHeartbeat_armed (interval : Z) (w : World) :
  sessions_armed w -> sessions_armed (world (configureHeartbeat interval w)).
Proof.
  intros A. split; simpl.
  - intros key t Ht. destruct (armed_timer w A key t Ht) as (Hk & h & p & Hh & Hm).
    split; [done|]. exists h, p. split; [done|].
    rewrite lookup_insert_ne; [done|].
    pose proof (session_timer_below w key t h A Ht Hh). lia.
  - apply (armed_distinct w A).
  - intros handle [t Ht]. destruct (decide (w_nextTimer w = handle)) as [<-|Hne].
    + lia.
    + rewrite lookup_insert_ne in Ht by done.
      assert (handle < w_nextTimer w)%nat by (apply (armed_below w A); eauto).
      lia.
Qed.

(** [X5] No sequence of [startTransaction] and [stopTransaction] disarms the
    heartbeat: a start takes a fresh handle, and a stop clears the timer of
    its session only. *)
Theorem heartbeat_survives_transactions (ops : list TxOp) (w : World)
    (handle : nat) (period : Z) :
  sessions_armed w ->
  w_timers w !! handle
  = Some {| timer_task := HeartbeatTask; timer_period := period |} ->
  w_timers (run_ops ops w) !! handle
  = Some {| timer_task := HeartbeatTask; timer_period := period |}.
Proof.
  revert w. induction ops as [|[t c | t] ops IH]; intros w A Hm;
    cbn [run_ops run_op].
  - done.
  - apply IH; [by apply startTransaction_armed|].
    rewrite startTransaction_run. simpl. rewrite lookup_insert_ne; [done|].
    assert (handle < w_nextTimer w)%nat
      by (apply (armed_below w A); by rewrite Hm).
    lia.
  - apply IH; [by apply stopTransaction_armed|].
    rewrite stopTransaction_run. simpl. unfold timer_of.
    destruct (w_transactions w !! key_of t) as [t0|] eqn:Ht; [|done].
    destruct (meterValuesTimer t0) as [h0|] eqn:Hh; [|done]. simpl.
    rewrite lookup_delete_ne; [done|]. intros <-.
    destruct (armed_timer w A _ t0 Ht) as (_ & h & p & Hh' & Hm').
    rewrite Hh in Hh'. injection Hh' as <-. rewrite Hm in Hm'. discriminate.
Qed.

Lemma heartbeat_survives_sample :
  w_timers (run_ops [Start 7 1; Stop 7]
              (world (configureHeartbeat 30000 Sample.open))) !! 0%nat
  = Some {| timer_task := HeartbeatTask; timer_period := 30000 |}.
Proof.
  apply (heartbeat_survives_transactions [Start 7 1; Stop 7]
           (world (configureHeartbeat 30000 Sample.open)) 0 30000).
  - apply configureHeartbeat_armed. by apply sessions_armed_empty.
  - reflexivity.
Defined.

(** [X6] The elapsed time of a transaction that was stopped is zero, and
    asking for it changes nothing. *)
Theorem getMeterValue_after_stop (transactionId : Z) (w : World) :
  getMeterValue transactionId (world (stopTransaction transactionId w))
  = (Ok 0%float, world (stopTransaction transactionId w)).
Proof.
  unfold getMeterValue, bind, read. simpl.
  by rewrite stopTransaction_table, lookup_delete_eq.
Qed.

(** ** Responses *)

(** [X7] [respond] hands the frame of a result to the transport exactly when
    the connection has a websocket, the payload has a JSON text and the
    response validator accepts it; otherwise it throws and transmits nothing.
    Either way it leaves the outbox and the connection as they are. *)
Theorem respond_transmits_what_validates (env : Collaborators)
    (r : OcppCallResult) (w : World) :
  w_outbox (world (respond env r w)) = w_outbox w /\
  w_vcp (world (respond env r w)) = w_vcp w /\
  (outcome (respond env r w) = Ok tt <->
   is_Some (ws (w_vcp w)) /\
   exists copy,
     json_clone (res_payload r) = Some copy /\
     validateOcppResponse env (ocppVersion (vcpOptions (w_vcp w)))
                          (JStr (res_action r)) copy = true) /\
  transmitted (w_trace (world (respond env r w)))
  = (transmitted (w_trace w)
     ++ match outcome (respond env r w) with
        | Ok _ => [result_frame r]
        | _ => []
        end)%list.
Proof.
  unfold respond, bind, read. simpl.
  destruct (ws (w_vcp w)) as [s|] eqn:Hs; simpl.
  2: { rewrite app_nil_r. repeat split; try done. by intros [[? ?] _]. }
  unfold reparse. destruct (json_clone (res_payload r)) as [copy|]; simpl.
  2: { rewrite transmitted_app, app_nil_r. simpl. rewrite app_nil_r.
       repeat split; try done. by intros (_ & ? & ? & _). }
  unfold validate, bind, read. simpl.
  destruct (validateOcppResponse env _ _ copy) eqn:Hv; simpl.
  - unfold ws_send, bind, read. simpl. rewrite Hs. simpl.
    rewrite !transmitted_app. simpl. rewrite app_nil_r.
    repeat split; eauto.
  - rewrite transmitted_app, app_nil_r. simpl. rewrite app_nil_r.
    repeat split; try done. intros (_ & copy' & [= <-] & Hv').
    by rewrite Hv in Hv'.
Qed.

(** A response that the sample schemas accept, and one that they reject. *)
Example respond_sample :
  transmitted (w_trace (world (respond Sample.env
                                 (result_for Sample.startCall (JStr "c1")
                                    (JObj [("status", JStr "Accepted")]))
                                 Sample.open)))
  = [JArr [JNum 3%float; JStr "c1"; JObj [("status", JStr "Accepted")]]] /\
  outcome (respond Sample.env
             (result_for Sample.startCall (JStr "c1") (JStr "Accepted"))
             Sample.open)
  = Throw (SchemaViolation (JStr "StartTransaction") (JStr "Accepted")).
Proof. split; by vm_compute. Qed.

(** [X8] [respondError] validates nothing: on a connection with a websocket
    it logs and transmits the error frame and returns, whatever the fields of
    the error are, and it changes nothing else. *)
Theorem respondError_always_transmits (e : OcppCallError) (w : World) :
  is_Some (ws (w_vcp w)) ->
  respondError e w
  = (Ok tt,
     append_events [EvLog (LogResponding (error_frame e));
                    EvWsSend (error_frame e)] w).
Proof.
  intros [s Hs]. unfold respondError, bind, read. simpl. rewrite Hs. simpl.
  unfold ws_send, bind, read. simpl. rewrite Hs. simpl.
  unfold emit, update, add_event. by rewrite append_events_app.
Qed.

Lemma respondError_always_transmits_sample :
  transmitted (w_trace (world (respondError (error_of []) Sample.open)))
  = [JArr [JNum 4%float; JNull; JNull; JNull; JNull]].
Proof.
  rewrite (respondError_always_transmits (error_of []) Sample.open).
  - reflexivity.
  - eexists. reflexivity.
Defined.

(** ** Dispatch of inbound frames *)

(** [X9] A type 4 frame goes to [handleCallError] with the four fields that
    follow the type, missing ones undefined: the outbox is not consulted, so
    an error for an id that was never sent reaches the handler too, and the
    connection itself throws nothing. *)
Theorem call_error_bypasses_outbox (env : Collaborators) (w : World)
    (rest : list jsval) :
  _onMessage env (JArr (JNum 4%float :: rest)) w
  = handleCallError (messageHandler env (w_vcp w)) (error_of rest)
      (append_events [EvLog (LogReceive (JArr (JNum 4%float :: rest)));
                      EvHandleCallError (error_of rest)] w).
Proof.
  unfold _onMessage.
  unfold bind at 1. unfold emit, update. cbn [fst snd].
  unfold bind at 1. cbn [iterate or_type_error ret].
  change (strict_eq_num (nth 0 (JNum 4%float :: rest) JUndefined) 2%float)
    with false.
  change (strict_eq_num (nth 0 (JNum 4%float :: rest) JUndefined) 3%float)
    with false.
  change (strict_eq_num (nth 0 (JNum 4%float :: rest) JUndefined) 4%float)
    with true.
  cbn [tail]. unfold call_handleCallError, bind, read, emit, update.
  cbn [fst snd]. unfold add_event. by rewrite append_events_app.
Qed.

(** [X10] A frame that is no array and no string makes [_onMessage] throw a
    [TypeError]; an array or a string whose first element is not the number
    2, 3 or 4, the empty array among them, makes it throw "Unrecognized
    message type". In both cases only the log line of the frame is written: no
    handler is called and nothing is transmitted. *)
Theorem malformed_frame_is_thrown (env : Collaborators) (data : jsval)
    (w : World) :
  (iterate data = None ->
   _onMessage env data w
   = (Throw TypeError, add_event (EvLog (LogReceive data)) w)) /\
  (forall items,
      iterate data = Some items ->
      strict_eq_num (nth 0 items JUndefined) 2%float = false ->
      strict_eq_num (nth 0 items JUndefined) 3%float = false ->
      strict_eq_num (nth 0 items JUndefined) 4%float = false ->
      _onMessage env data w
      = (Throw (UnrecognizedMessageType (nth 0 items JUndefined)),
         add_event (EvLog (LogReceive data)) w)).
Proof.
  split.
  - intros H. unfold _onMessage, bind, emit, update. simpl. by rewrite H.
  - intros items H H2 H3 H4. unfold _onMessage.
    unfold bind at 1. unfold emit, update. cbn [fst snd].
    unfold bind at 1. rewrite H. cbn [or_type_error ret].
    by rewrite H2, H3, H4.
Qed.

Lemma malformed_frame_is_thrown_sample :
  _onMessage Sample.env (JArr []) Sample.open
  = (Throw (UnrecognizedMessageType JUndefined),
     add_event (EvLog (LogReceive (JArr []))) Sample.open).
Proof.
  apply (proj2 (malformed_frame_is_thrown Sample.env (JArr []) Sample.open) []);
    reflexivity.
Defined.

(** [X11] An inbound call that the request validator accepts, with an action
    other than [StatusNotification] and [MeterValues], is handed to
    [handleCall] with the fields of the frame. By then the frame is logged
    and broadcast, [lastAction] names the action as incoming and the new state
    is broadcast; nothing else has changed, whatever the payload is. *)
Theorem accepted_call_reaches_handler (env : Collaborators) (w : World)
    (messageId payload : jsval) (action : string) (rest : list jsval) :
  let data :=
    JArr (JNum 2%float :: messageId :: JStr action :: payload :: rest) in
  let c := {| in_messageId := messageId; in_action := JStr action;
              in_payload := payload |} in
  let st := set_lastAction (action +:+ " (incoming)") (state (w_vcp w)) in
  validateOcppRequest env (ocppVersion (vcpOptions (w_vcp w)))
                      (JStr action) payload = true ->
  String.eqb action "StatusNotification" = false ->
  String.eqb action "MeterValues" = false ->
  _onMessage env data w
  = handleCall (messageHandler env (w_vcp w)) c
      (append_events
         (EvLog (LogReceive data)
          :: admin_events
               (received_notice messageId (JStr action) payload (w_clock w))
               (adminWs (w_vcp w))
          ++ admin_events
               (JObj [("type", JStr "state_update"); ("data", state_value st)])
               (adminWs (w_vcp w))
          ++ [EvHandleCall c])
         (with_state st w)).
Proof.
  intros data c st Hv Hs Hm. subst data.
  rewrite (onMessage_call env w (messageId :: JStr action :: payload :: rest)).
  cbv zeta. cbn [nth].
  set (w0 := append_events _ w).
  unfold bind at 1, validate at 1. unfold bind at 1, read.
  cbn [fst snd]. change (w_vcp w0) with (w_vcp w). rewrite Hv.
  cbn [ret]. unfold bind at 1.
  assert (E : updateStateFromMessage env (JStr action) payload "incoming" w0
              = (Ok tt,
                 append_events
                   (admin_events
                      (JObj [("type", JStr "state_update");
                             ("data", state_value st)])
                      (adminWs (w_vcp w)))
                   (with_state st w0))).
  { unfold updateStateFromMessage. cbn [strict_eq_str]. rewrite Hs, Hm.
    rewrite andb_false_r.
    unfold broadcastStateUpdate, when, assign, update, bind, read, ret.
    cbn [fst snd]. by rewrite broadcast_run. }
  rewrite E. unfold call_handleCall, bind, read, emit, update. cbn [fst snd].
  subst w0. unfold add_event, with_state, set_vcp, append_events. simpl.
  by rewrite <- !app_assoc.
Qed.

Lemma accepted_call_reaches_handler_sample :
  outcome (_onMessage Sample.env
             (JArr [JNum 2%float; JStr "c2"; JStr "Reset";
                    JObj [("type", JStr "Hard")]])
             Sample.open) = Ok tt.
Proof.
  rewrite (accepted_call_reaches_handler Sample.env Sample.open (JStr "c2")
             (JObj [("type", JStr "Hard")]) "Reset" []); reflexivity.
Defined.

(** ** The end of the connection *)

(** [X12] The close listener tells a local close from a remote one by
    [isFinishing]: after [close] it returns and does nothing; after [connect],
    which resets the flag, it logs the closure and ends the process with code
    0. *)
Theorem onClose_tells_local_from_remote (env : Collaborators) (w : World)
    (code : Z) (reason : string) :
  (is_Some (ws (w_vcp w)) ->
   _onClose code reason (world (close w)) = (Ok tt, world (close w))) /\
  _onClose code reason (world (connect env w))
  = (Exit 0,
     add_event (EvLog (LogConnectionClosed code reason))
               (world (connect env w))).
Proof.
  split.
  - intros H. destruct (close_with_websocket w H) as (_ & _ & _ & F).
    unfold _onClose, bind, read. cbn [fst snd]. by rewrite F.
  - reflexivity.
Qed.

Lemma onClose_tells_local_from_remote_sample :
  _onClose 1000 "" Sample.closed = (Ok tt, Sample.closed).
Proof.
  apply (proj1 (onClose_tells_local_from_remote Sample.env Sample.open
                  1000 "")).
  eexists. reflexivity.
Defined.

(** ** Sending, and the state that the connection shows *)

Lemma connect_run (env : Collaborators) (w : World) :
  outcome (connect env w) = Ok tt /\
  is_Some (ws (w_vcp (world (connect env w)))) /\
  isFinishing (w_vcp (world (connect env w))) = false /\
  vcpOptions (w_vcp (world (connect env w))) = vcpOptions (w_vcp w) /\
  w_outbox (world (connect env w)) = w_outbox w /\
  transmitted (w_trace (world (connect env w))) = transmitted (w_trace w).
Proof.
  unfold connect, bind, emit, update, read. simpl.
  rewrite !transmitted_app. simpl. rewrite !app_nil_r. eauto 10.
Qed.

(** [X13] After [connect], whatever the connection was before, [send] of a
    call with a fresh id whose payload the request validator accepts hands
    the frame of the call to the transport, and nothing else, and leaves the
    call in the outbox. *)
Theorem send_after_connect_transmits (env : Collaborators) (c : OcppCall)
    (w : World) (copy : jsval) :
  w_outbox w !! messageId c = None ->
  json_clone (payload c) = Some copy ->
  validateOcppRequest env (ocppVersion (vcpOptions (w_vcp w)))
                      (JStr (action c)) copy = true ->
  transmitted (w_trace (world (send env c (world (connect env w)))))
  = (transmitted (w_trace w) ++ [frame_of c])%list /\
  w_outbox (world (send env c (world (connect env w)))) !! messageId c
  = Some c.
Proof.
  intros Hc Hp Hv.
  destruct (connect_run env w) as (_ & Hs & _ & Ho & Hb & Ht).
  destruct (send_accepted_world env c (world (connect env w)) copy)
    as (Hbox & admin & F & E); try done.
  split.
  - rewrite E, !transmitted_app, Ht. cbn [transmitted].
    by rewrite (transmitted_admin admin), app_nil_r.
  - rewrite Hbox. apply lookup_insert_eq.
Qed.

Lemma send_after_connect_transmits_sample :
  transmitted (w_trace (world (send Sample.env Sample.startCall
                                 (world (connect Sample.env Sample.idle)))))
  = [frame_of Sample.startCall].
Proof.
  refine (proj1 (send_after_connect_transmits Sample.env Sample.startCall
                   Sample.idle
                   (JObj [("connectorId", JNum 1%float);
                          ("idTag", JStr "AABBCC")]) _ _ _));
    reflexivity.
Defined.

(** [X14] A call without a payload is never transmitted: on a connection
    with a websocket, [send] of a call with a fresh id and an undefined
    payload enqueues the call and then throws a [SyntaxError], before the
    validator is asked and before anything is handed to the transport. *)
Theorem send_without_payload_throws (env : Collaborators) (c : OcppCall)
    (w : World) :
  is_Some (ws (w_vcp w)) ->
  w_outbox w !! messageId c = None ->
  payload c = JUndefined ->
  outcome (send env c w) = Throw SyntaxError /\
  transmitted (w_trace (world (send env c w))) = transmitted (w_trace w) /\
  w_outbox (world (send env c w)) !! messageId c = Some c.
Proof.
  intros Hs Hc Hp. rewrite send_unprintable; [|done..|by rewrite Hp].
  cbn [world outcome fst snd]. rewrite enqueued_trace, transmitted_app.
  cbn [transmitted]. rewrite app_nil_r. repeat split.
  apply lookup_insert_eq.
Qed.

Lemma send_without_payload_throws_sample :
  outcome (send Lenient.env (call "m5" "Heartbeat" JUndefined) Sample.open)
  = Throw SyntaxError.
Proof.
  refine (proj1 (send_without_payload_throws Lenient.env
                   (call "m5" "Heartbeat" JUndefined) Sample.open _ _ _)).
  - eexists. reflexivity.
  - reflexivity.
  - reflexivity.
Defined.

Lemma after_transmission_world (env : Collaborators) (c : OcppCall)
    (w : World) (copy : jsval) :
  is_Some (ws (w_vcp w)) ->
  w_outbox w !! messageId c = None ->
  json_clone (payload c) = Some copy ->
  validateOcppRequest env (ocppVersion (vcpOptions (w_vcp w)))
                      (JStr (action c)) copy = true ->
  transmitted (w_trace (world (send env c w)))
  = (transmitted (w_trace w) ++ [frame_of c])%list /\
  w_outbox (world (send env c w)) !! messageId c = Some c.
Proof.
  intros Hs Hc Hp Hv.
  destruct (send_accepted_world env c w copy) as (Hbox & admin & F & E);
    try done.
  split.
  - rewrite E, !transmitted_app. cbn [transmitted].
    by rewrite (transmitted_admin admin), app_nil_r.
  - rewrite Hbox. apply lookup_insert_eq.
Qed.

(** [X15] [send] can throw after it has transmitted. A [StatusNotification]
    call with a null payload that the validator lets through is enqueued and
    handed to the transport, and then the update of the state throws a
    [TypeError] on [payload.status]: the caller sees the exception, the frame
    is on the wire, and the call stays in the outbox. *)
Theorem send_can_throw_after_transmitting (env : Collaborators) (c : OcppCall)
    (w : World) :
  is_Some (ws (w_vcp w)) ->
  w_outbox w !! messageId c = None ->
  action c = "StatusNotification" ->
  payload c = JNull ->
  validateOcppRequest env (ocppVersion (vcpOptions (w_vcp w)))
                      (JStr "StatusNotification") JNull = true ->
  outcome (send env c w) = Throw TypeError /\
  transmitted (w_trace (world (send env c w)))
  = (transmitted (w_trace w) ++ [frame_of c])%list /\
  w_outbox (world (send env c w)) !! messageId c = Some c.
Proof.
  intros Hs Hc Ha Hp Hv.
  assert (Hp' : json_clone (payload c) = Some JNull) by (by rewrite Hp).
  rewrite <- Ha in Hv.
  split; [|by apply (after_transmission_world env c w JNull)].
  rewrite (send_accepted env c w JNull) by done.
  unfold after_transmission. rewrite outcome_bind.
  unfold updateStateFromMessage. rewrite Ha, Hp.
  rewrite outcome_bind. cbn [outcome assign update fst].
  by rewrite outcome_bind.
Qed.

Lemma send_can_throw_after_transmitting_sample :
  outcome (send Lenient.env (call "m6" "StatusNotification" JNull) Sample.open)
  = Throw TypeError.
Proof.
  refine (proj1 (send_can_throw_after_transmitting Lenient.env
                   (call "m6" "StatusNotification" JNull) Sample.open
                   _ _ _ _ _)); try reflexivity.
  eexists. reflexivity.
Defined.

(** [X16] Sending [StopTransaction] ends the session that the connection
    shows: when [send] has transmitted such a call, it returns, the active
    transaction and the start of the session are null, the meter value is 0
    and [lastAction] is "StopTransaction (outgoing)"; the status is as it
    was. *)
Theorem send_stop_clears_session (env : Collaborators) (c : OcppCall)
    (w : World) (copy : jsval) :
  is_Some (ws (w_vcp w)) ->
  w_outbox w !! messageId c = None ->
  json_clone (payload c) = Some copy ->
  validateOcppRequest env (ocppVersion (vcpOptions (w_vcp w)))
                      (JStr (action c)) copy = true ->
  action c = "StopTransaction" ->
  outcome (send env c w) = Ok tt /\
  state (w_vcp (world (send env c w)))
  = {| currentStatus := currentStatus (state (w_vcp w));
       activeTransactionId := JNull;
       sessionStartTime := JNull;
       meterValue := 0%float;
       lastAction := "StopTransaction (outgoing)" |}.
Proof.
  intros Hs Hc Hp Hv Ha. rewrite (send_accepted env c w copy) by done.
  unfold after_transmission, updateStateFromMessage. rewrite Ha.
  cbn [strict_eq_str String.eqb Ascii.eqb Bool.eqb andb to_string].
  unfold broadcastStateUpdate, when, assign, update, bind, read, ret.
  cbn [fst snd]. rewrite !broadcast_run. by cbn.
Qed.

Lemma send_stop_clears_session_sample :
  activeTransactionId
    (state (w_vcp (world (send Sample.env
                            (call "m7" "StopTransaction"
                                  (JObj [("transactionId", JNum 7%float)]))
                            (world (_onMessage Sample.env Sample.startResult
                                      Sample.pending))))))
  = JNull.
Proof.
  rewrite (proj2 (send_stop_clears_session Sample.env
                    (call "m7" "StopTransaction"
                          (JObj [("transactionId", JNum 7%float)]))
                    (world (_onMessage Sample.env Sample.startResult
                              Sample.pending))
                    (JObj [("transactionId", JNum 7%float)])
                    ltac:(eexists; reflexivity) eq_refl eq_refl eq_refl
                    eq_refl)).
  reflexivity.
Defined.

Lemma one_is_positive (rt : JSRuntime) :
  gt_zero rt (JNum (num_of_Z (Z.of_nat 1))) = true.
Proof. reflexivity. Qed.

(** What the state tracker does with the telemetry call of the simulator. *)
Lemma telemetry_tracked (env : Collaborators) (w : World)
    (connectorId transactionId : Z) (id : string) (now : Z) (seconds : float) :
  let c := telemetry_call env connectorId transactionId id now seconds in
  let st :=
    set_meterValue
      (Math_round (runtime env)
         (parsed_or_zero (runtime env) (energy_kWh env seconds) * 1000)%float)
      (set_lastAction "MeterValues (outgoing)" (state (w_vcp w))) in
  updateStateFromMessage env (JStr (action c)) (payload c) "outgoing" w
  = (Ok tt,
     append_events
       (admin_events
          (JObj [("type", JStr "state_update"); ("data", state_value st)])
          (adminWs (w_vcp w)))
       (with_state st w)).
Proof.
  intros c st. subst c st. unfold telemetry_call, call, parsed_or_zero.
  generalize (energy_kWh env seconds). intros energy.
  cbn [action payload].
  unfold updateStateFromMessage, trackMeterValues, broadcastStateUpdate,
    when, assign, update, bind, read, ret, or_type_error.
  cbn -[gt_zero num_of_Z Z.of_nat broadcastToAdminClients].
  rewrite !one_is_positive.
  cbn -[broadcastToAdminClients]. by rewrite broadcast_run.
Qed.

(** [X17] When [send] has transmitted the telemetry call of the simulator,
    it returns, and the meter value that the connection shows is the reported
    energy read back with [parseFloat], taken from kWh to Wh (times 1000) and
    rounded; [lastAction] is "MeterValues (outgoing)". *)
Theorem telemetry_updates_shown_meter (env : Collaborators) (w : World)
    (connectorId transactionId : Z) (id : string) (now : Z) (seconds : float) :
  let c := telemetry_call env connectorId transactionId id now seconds in
  is_Some (ws (w_vcp w)) ->
  w_outbox w !! id = None ->
  validateOcppRequest env (ocppVersion (vcpOptions (w_vcp w)))
                      (JStr "MeterValues") (json_clone_in (payload c)) = true ->
  outcome (send env c w) = Ok tt /\
  meterValue (state (w_vcp (world (send env c w))))
  = Math_round (runtime env)
      (parsed_or_zero (runtime env) (energy_kWh env seconds) * 1000)%float /\
  lastAction (state (w_vcp (world (send env c w)))) = "MeterValues (outgoing)".
Proof.
  intros c Hs Hc Hv.
  rewrite (send_accepted env c w (json_clone_in (payload c))) by done.
  unfold after_transmission. unfold bind at 1 3 5.
  subst c. rewrite telemetry_tracked. cbv zeta.
  unfold bind, read. cbn [fst snd]. rewrite !broadcast_run. by cbn.
Qed.

Lemma telemetry_updates_shown_meter_sample :
  lastAction
    (state (w_vcp (world (send Sample.env
                            (telemetry_call Sample.env 1 7 "m4" 3600000
                                            3600%float)
                            Sample.charging))))
  = "MeterValues (outgoing)".
Proof.
  refine (proj2 (proj2 (telemetry_updates_shown_meter Sample.env
                          Sample.charging 1 7 "m4" 3600000 3600%float
                          _ _ _))).
  - eexists. reflexivity.
  - reflexivity.
  - reflexivity.
Defined.

(** ** Results of [StartTransaction] *)

(** [X18] A [StartTransaction] result whose [transactionId] is truthy makes
    the connection show that transaction, started now, and broadcast the
    state; a falsy [transactionId] (absent, null, or the number 0) is not
    recorded: the world stays as it is. In both cases the update returns. *)
Theorem start_result_records_truthy_id (payload v : jsval) (w : World) :
  get_prop payload "transactionId" = Some v ->
  outcome (updateStateFromCallResult "StartTransaction" payload w) = Ok tt /\
  (truthy v = false ->
   world (updateStateFromCallResult "StartTransaction" payload w) = w) /\
  (truthy v = true ->
   state (w_vcp (world (updateStateFromCallResult "StartTransaction"
                          payload w)))
   = set_sessionStartTime (JDate (w_clock w))
       (set_activeTransactionId v (state (w_vcp w)))).
Proof.
  intros H. unfold updateStateFromCallResult.
  cbn [String.eqb Ascii.eqb Bool.eqb]. rewrite H. cbn [or_type_error].
  unfold broadcastStateUpdate, assign, update, bind, read, ret.
  cbn [fst snd]. destruct (truthy v).
  - rewrite broadcast_run. cbn. by repeat split.
  - cbn. by repeat split.
Qed.

Lemma start_result_records_truthy_id_sample :
  world (updateStateFromCallResult "StartTransaction"
           (JObj [("transactionId", JNum 0%float)]) Sample.pending)
  = Sample.pending.
Proof.
  apply (proj1 (proj2 (start_result_records_truthy_id
                         (JObj [("transactionId", JNum 0%float)])
                         (JNum 0%float) Sample.pending eq_refl))).
  reflexivity.
Defined.

(** ** Broadcasts *)

Lemma admin_sends_app (a b : list Event) :
  admin_sends (a ++ b) = (admin_sends a ++ admin_sends b)%list.
Proof.
  induction a as [|e a IH]; [done|]. destruct e; simpl; by rewrite ?IH.
Qed.

(** [X19] A broadcast always returns. With an admin server it sends the
    message once to every client that is open, in the order of the clients,
    and nothing to the others; without a server it sends nothing. It changes
    nothing but the trace. *)
Theorem broadcast_reaches_open_clients (message : jsval) (w : World) :
  exists evs,
    broadcastToAdminClients message w = (Ok tt, append_events evs w) /\
    Forall is_admin_send evs /\
    admin_sends evs
    = List.map (fun client => (client_id client, JSON_stringify message))
        (List.filter client_open
           (match adminWs (w_vcp w) with
            | Some clients => clients
            | None => []
            end)).
Proof.
  exists (admin_events message (adminWs (w_vcp w))).
  split; [apply broadcast_run|]. split; [apply admin_events_admin|].
  unfold admin_events. destruct (adminWs (w_vcp w)) as [clients|]; [|done].
  induction (List.filter client_open clients) as [|c l IH]; [done|].
  simpl. by rewrite IH.
Qed.

(** ** The dashboard *)

Lemma two_digits (n : Z) :
  0 <= n < 60 -> String.length (padStart2 (pretty n)) = 2%nat.
Proof.
  intros H. destruct n as [|p|p]; [reflexivity| |lia].
  do 6 (destruct p as [p|p|]; try lia; try reflexivity).
Qed.

(** [X20] For a session that started at or before [now], the duration shown
    is hours, minutes and seconds separated by colons, each padded to two
    digits; minutes and seconds are below 60 and take exactly two characters,
    and together with the hours they add up to the whole seconds elapsed. *)
Theorem session_duration_adds_up (start now : Z) :
  start <= now ->
  exists hours minutes seconds,
    updateSessionDuration (Some start) now
    = Some (padStart2 (pretty hours) +:+ ":" +:+
            padStart2 (pretty minutes) +:+ ":" +:+
            padStart2 (pretty seconds)) /\
    0 <= hours /\ 0 <= minutes < 60 /\ 0 <= seconds < 60 /\
    hours * 3600 + minutes * 60 + seconds = (now - start) / 1000 /\
    String.length (padStart2 (pretty minutes)) = 2%nat /\
    String.length (padStart2 (pretty seconds)) = 2%nat.
Proof.
  intros H. set (diff := (now - start) / 1000).
  assert (0 <= diff) by (subst diff; apply Z.div_pos; lia).
  exists (diff / 3600), (Z.rem diff 3600 / 60), (Z.rem diff 60).
  rewrite !Z.rem_mod_nonneg by lia.
  assert (0 <= diff mod 3600 / 60 < 60 /\ 0 <= diff mod 60 < 60 /\
          0 <= diff / 3600 /\
          diff / 3600 * 3600 + diff mod 3600 / 60 * 60 + diff mod 60 = diff)
    as (Hm & Hs & Hh & E).
  { clearbody diff. Z.to_euclidean_division_equations. lia. }
  split.
  - unfold updateSessionDuration. fold diff.
    by rewrite !Z.rem_mod_nonneg by lia.
  - repeat split; try apply two_digits; lia.
Qed.

Lemma session_duration_adds_up_sample :
  exists hours minutes seconds,
    updateSessionDuration (Some 0) 3725000
    = Some (padStart2 (pretty hours) +:+ ":" +:+
            padStart2 (pretty minutes) +:+ ":" +:+
            padStart2 (pretty seconds)) /\
    0 <= hours /\ 0 <= minutes < 60 /\ 0 <= seconds < 60 /\
    hours * 3600 + minutes * 60 + seconds = (3725000 - 0) / 1000 /\
    String.length (padStart2 (pretty minutes)) = 2%nat /\
    String.length (padStart2 (pretty seconds)) = 2%nat.
Proof. apply (session_duration_adds_up 0 3725000). discriminate. Defined.

(** An hour, two minutes and five seconds; and a date still to come. *)
Example session_duration_sample :
  updateSessionDuration (Some 0) 3725000 = Some "01:02:05" /\
  updateSessionDuration (Some 1000) 0 = Some "-1:-1:-1" /\
  updateSessionDuration None 3725000 = None.
Proof. repeat split; by vm_compute. Qed.
